(** * ReadRight (streamlit_app.py): the adaptation-request orchestrator

    A shallow embedding of [call_function], [adapt_text] and of the cache and
    filter fragments of [main], with the properties the specification states
    about them.

    Modelling conventions.
    - Python values that travel through the code (the configuration
      dictionary, parsed JSON bodies, session-state entries) are [pyval]s;
      a dictionary literal is an association list in insertion order, read
      with [dict_get] (first binding of a key).
    - A [str] is a [string], one [ascii] per character (code points below
      256).
    - A call either returns or raises: [result].
    - The process state a call can see ([st.secrets], [os.environ],
      [st.session_state], the network) is a [World], passed explicitly; every
      HTTP request issued is appended to the world's [sent] log. *)

From Stdlib Require Import ZArith String Ascii List Bool Lia DecimalString SpecFloat.
From stdpp Require Import base gmap strings list.

Set Warnings "-register-all".
Open Scope string_scope.

(** ** Python values *)

Inductive pyval : Type :=
| PNone
| PBool (b : bool)
| PInt (n : Z)
| PFloat (f : spec_float)
| PStr (s : string)
| PList (l : list pyval)
| PDict (d : list (string * pyval)).

Abbreviation pydict := (list (string * pyval)).

(** Exceptions, by class; [OtherError] stands for whatever a library call
    (the HTTP transport, the JSON decoder) raises. *)
Inductive pyexc : Type :=
| AttributeError
| KeyError
| IndexError
| TypeError
| OtherError (name msg : string).

Inductive result (A : Type) : Type :=
| Return (a : A)
| Raise (e : pyexc).
Arguments Return {A} a.
Arguments Raise {A} e.

(** [result] is an exception monad; sequencing uses stdpp's [x ← m; k]. *)
#[global] Instance result_ret : MRet result := fun A a => Return a.
#[global] Instance result_bind : MBind result := fun A B k m =>
  match m with
  | Return a => k a
  | Raise e => Raise e
  end.

(** [d.get(k)] on a dict: first binding of [k]. *)
Fixpoint dict_get (d : pydict) (k : string) : option pyval :=
  match d with
  | [] => None
  | (k', v) :: d' => if String.eqb k' k then Some v else dict_get d' k
  end.

(** [d.get(k, dflt)] *)
Definition dict_get_default (d : pydict) (k : string) (dflt : pyval) : pyval :=
  match dict_get d k with
  | Some v => v
  | None => dflt
  end.

(** [d.get(k)], which is [None] for an absent key. *)
Definition dict_get_none (d : pydict) (k : string) : pyval :=
  dict_get_default d k PNone.

(** [k in d] *)
Definition dict_has (d : pydict) (k : string) : bool :=
  match dict_get d k with
  | Some _ => true
  | None => false
  end.

Definition float_is_zero (f : spec_float) : bool :=
  match f with
  | S754_zero _ => true
  | _ => false
  end.

(** Truth value of an object ([if v:], [not v], [v or w]). *)
Definition truthy (v : pyval) : bool :=
  match v with
  | PNone => false
  | PBool b => b
  | PInt n => negb (n =? 0)%Z
  | PFloat f => negb (float_is_zero f)
  | PStr s => negb (String.eqb s "")
  | PList l => match l with [] => false | _ => true end
  | PDict d => match d with [] => false | _ => true end
  end.

(** Lists and dicts cannot be used as dictionary keys. *)
Definition hashable (v : pyval) : bool :=
  match v with
  | PList _ | PDict _ => false
  | _ => true
  end.

(** [v == s] for a [str] [s]: only an equal [str] compares equal. *)
Definition eq_str (v : pyval) (s : string) : bool :=
  match v with
  | PStr t => String.eqb t s
  | _ => false
  end.

(** [v.get(k, dflt)]: defined on dicts only. *)
Definition py_get (v : pyval) (k : string) (dflt : pyval) : result pyval :=
  match v with
  | PDict d => Return (dict_get_default d k dflt)
  | _ => Raise AttributeError
  end.

(** [v[k]] for a [str] key [k]. *)
Definition py_getitem (v : pyval) (k : string) : result pyval :=
  match v with
  | PDict d => match dict_get d k with
               | Some x => Return x
               | None => Raise KeyError
               end
  | _ => Raise TypeError
  end.

(** [v[0]] *)
Definition py_index0 (v : pyval) : result pyval :=
  match v with
  | PList (x :: _) => Return x
  | PList [] => Raise IndexError
  | PStr (String c _) => Return (PStr (String c ""))
  | PStr "" => Raise IndexError
  | PDict _ => Raise KeyError
  | _ => Raise TypeError
  end.

(** ** Strings *)

(** [str.isspace] on one character. *)
Definition is_space (c : ascii) : bool :=
  let n := nat_of_ascii c in
  (((9 <=? n) && (n <=? 13)) || ((28 <=? n) && (n <=? 32))
   || (n =? 133) || (n =? 160))%nat.

Fixpoint lstrip (s : string) : string :=
  match s with
  | "" => ""
  | String c s' => if is_space c then lstrip s' else s
  end.

Fixpoint rstrip (s : string) : string :=
  match s with
  | "" => ""
  | String c s' =>
      let r := rstrip s' in
      if is_space c && String.eqb r "" then "" else String c r
  end.

(** [s.strip()] *)
Definition strip (s : string) : string := rstrip (lstrip s).

Definition lower_char (c : ascii) : ascii :=
  let n := nat_of_ascii c in
  if (((65 <=? n) && (n <=? 90))
      || ((192 <=? n) && (n <=? 222) && negb (n =? 215)))%nat
  then ascii_of_nat (n + 32) else c.

(** [s.lower()] *)
Fixpoint lower (s : string) : string :=
  match s with
  | "" => ""
  | String c s' => String (lower_char c) (lower s')
  end.

Fixpoint startswith (p s : string) : bool :=
  match p, s with
  | "", _ => true
  | String a p', String b s' => Ascii.eqb a b && startswith p' s'
  | String _ _, "" => false
  end.

(** [needle in hay] on strings. *)
Fixpoint str_in (needle hay : string) : bool :=
  startswith needle hay
  || match hay with
     | "" => false
     | String _ hay' => str_in needle hay'
     end.

(** Decimal rendering of an [int]. *)
Definition str_of_int (n : Z) : string := NilEmpty.string_of_int (Z.to_int n).

(** [v.strip()]: defined on [str] only. *)
Definition py_strip (v : pyval) : result string :=
  match v with
  | PStr s => Return (strip s)
  | _ => Raise AttributeError
  end.

(** [v.lower()]: defined on [str] only. *)
Definition py_lower (v : pyval) : result string :=
  match v with
  | PStr s => Return (lower s)
  | _ => Raise AttributeError
  end.

(** [k in v] for a [str] [k]: key of a dict, element of a list, substring
    of a [str]. *)
Definition py_contains (k : string) (v : pyval) : result bool :=
  match v with
  | PDict d => Return (dict_has d k)
  | PList l => Return (existsb (fun x => eq_str x k) l)
  | PStr s => Return (str_in k s)
  | _ => Raise TypeError
  end.

(** ** HTTP *)

Inductive http_method := GET | POST.

Record Request := {
  req_method : http_method;
  req_url : string;
  req_headers : list (string * string);
  req_json : option pyval;
  req_timeout : option Z;
}.

(** What the code reads from a [requests.Response]: [status_code], [text]
    and the outcome of [json()]. *)
Record Response := {
  status_code : Z;
  resp_text : string;
  resp_json : result pyval;
}.

(** [Response.ok]: false exactly for the 4xx and 5xx codes. *)
Definition ok (r : Response) : bool :=
  negb ((400 <=? status_code r)%Z && (status_code r <? 600)%Z).

(** ** Process state *)

(** The module attribute [st.secrets] as [adapt_text] probes it. *)
Inductive secrets_attr :=
| SecretsAbsent                 (* hasattr(st, "secrets") is false *)
| SecretsRaises                 (* touching st.secrets raises *)
| SecretsNotDict                (* present, but not a dict instance *)
| SecretsDict (d : pydict).     (* a dict *)

Record World := {
  st_secrets : secrets_attr;
  os_environ : gmap string string;
  session_state : gmap string pyval;
  http : Request -> result Response;
  sent : list Request;
}.

Definition log_request (q : Request) (w : World) : World :=
  {| st_secrets := st_secrets w;
     os_environ := os_environ w;
     session_state := session_state w;
     http := http w;
     sent := sent w ++ [q] |}.

(** [requests.post] / [requests.get]: one network round trip. *)
Definition requests_send (q : Request) (w : World) : result Response * World :=
  (http w q, log_request q w).

(** [os.getenv(k)] *)
Definition os_getenv (w : World) (k : string) : pyval :=
  match os_environ w !! k with
  | Some s => PStr s
  | None => PNone
  end.

(** [st.session_state.<k> = v] *)
Definition set_session (k : string) (v : pyval) (w : World) : World :=
  {| st_secrets := st_secrets w;
     os_environ := os_environ w;
     session_state := <[k := v]> (session_state w);
     http := http w;
     sent := sent w |}.

(** [st.session_state.get(k)] *)
Definition session_get (w : World) (k : string) : pyval :=
  match session_state w !! k with
  | Some v => v
  | None => PNone
  end.

(** [st.session_state.get(k, dflt)] *)
Definition session_get_default (w : World) (k : string) (dflt : pyval) : pyval :=
  match session_state w !! k with
  | Some v => v
  | None => dflt
  end.

(** ** Module-level configuration *)

Record Settings := {
  SUPABASE_URL : string;
  FUNCTION_SLUG : string;
}.

(** [os.getenv(k, dflt)] on the environment the module is imported in. *)
Definition getenv_default (env : gmap string string) (k dflt : string) : string :=
  match env !! k with
  | Some s => s
  | None => dflt
  end.

Definition load_settings (env : gmap string string) : Settings :=
  {| SUPABASE_URL :=
       getenv_default env "SUPABASE_URL" "https://kplxzwwckwlsqusgipvx.supabase.co";
     FUNCTION_SLUG :=
       getenv_default env "FUNCTION_SLUG" "make-server-f7050fc0" |}.

Definition nl : string := String (ascii_of_nat 10) "".

Definition OPENAI_URL : string := "https://api.openai.com/v1/chat/completions".

(** The float literal [0.7] (binary64). *)
Definition float_0_7 : spec_float := S754_finite false 6305039478318694 (-53).

(** [{"error": v}] *)
Definition error_dict (v : pyval) : pyval := PDict [("error", v)].

(** ** Sample runtime, worlds and responses *)

Definition sample_exc_str (e : pyexc) : string :=
  match e with
  | AttributeError => "object has no attribute"
  | KeyError => "key"
  | IndexError => "index out of range"
  | TypeError => "unsupported type"
  | OtherError _ msg => msg
  end.

Definition sample_repr (v : pyval) : string := "<object>".

Definition sample_settings : Settings := load_settings ∅.

(** A world whose network gives the same answer to every request. *)
Definition sample_world (secrets : secrets_attr) (env : gmap string string)
  (session : gmap string pyval) (answer : result Response) : World :=
  {| st_secrets := secrets;
     os_environ := env;
     session_state := session;
     http := fun _ => answer;
     sent := [] |}.

Definition key_env : gmap string string := {[ "OPENAI_API_KEY" := "sk-test" ]}.

Definition completion : Response :=
  {| status_code := 200;
     resp_text := "";
     resp_json :=
       Return (PDict
         [("choices",
           PList [PDict [("message",
                          PDict [("role", PStr "assistant");
                                 ("content", PStr " The cat sat. ")])]]);
          ("usage",
           PDict [("prompt_tokens", PInt 42);
                  ("completion_tokens", PInt 7);
                  ("total_tokens", PInt 49)])]) |}.

Definition completion_result : pyval :=
  PDict [("adaptedText", PStr "The cat sat.");
         ("metadata",
          PDict [("model", PStr "gpt-4");
                 ("promptTokens", PInt 42);
                 ("completionTokens", PInt 7);
                 ("totalTokens", PInt 49)])].

Definition not_json : pyexc :=
  OtherError "JSONDecodeError" "Expecting value: line 1 column 1 (char 0)".

Definition server_error_empty : Response :=
  {| status_code := 500; resp_text := ""; resp_json := Raise not_json |}.

Definition bad_gateway_page : Response :=
  {| status_code := 502;
     resp_text := " <html>Bad Gateway</html>" ++ String (ascii_of_nat 10) "";
     resp_json := Raise not_json |}.

Definition server_error_list : Response :=
  {| status_code := 500; resp_text := "[]"; resp_json := Return (PList []) |}.

Definition empty_object : Response :=
  {| status_code := 200; resp_text := "{}"; resp_json := Return (PDict []) |}.

Definition error_and_text : Response :=
  {| status_code := 200;
     resp_text := "";
     resp_json := Return (PDict [("error", PStr "quota exceeded");
                                 ("adaptedText", PStr "The cat sat.")]) |}.

Definition connection_refused : pyexc :=
  OtherError "ConnectionError" "connection refused".

Definition premium_config : pydict :=
  [("gradeLevel", PStr "2"); ("aiModel", PStr "premium");
   ("simplifyVocabulary", PBool true); ("addDefinitions", PBool false);
   ("shortParagraphs", PBool true); ("visualBreaks", PBool false);
   ("comprehensionQuestions", PBool false)].

Definition list_model_config : pydict :=
  [("gradeLevel", PStr "2"); ("aiModel", PList [PStr "premium"])].

Definition sample_entry (id grade model original adapted : string) : pyval :=
  PDict [("id", PStr id);
         ("timestamp", PStr "2025-01-01T00:00:00Z");
         ("originalText", PStr original);
         ("adaptedText", PStr adapted);
         ("wordCount", PInt 3);
         ("config", PDict [("gradeLevel", PStr grade); ("aiModel", PStr model)])].

Definition sample_history : list pyval :=
  [sample_entry "a" "2" "basic" "The feline reposed." "The cat sat.";
   sample_entry "b" "5" "basic" "Canines vocalise." "The Cat next door barks.";
   sample_entry "c" "2" "premium" "Photosynthesis." "Plants make food."].

Definition stale_session : gmap string pyval :=
  {[ "analytics_cache" := PDict [("stats", PDict [("totalAdaptations", PInt 3)])];
     "history_cache" := PList sample_history ]}.

Section App.

(** The interpreter's [str(exc)] and its rendering of floats and containers
    inside an f-string are left open; every statement below holds for any
    choice of them. [cfg] is the module's configuration, fixed at import. *)
Variable exc_str : pyexc -> string.
Variable py_repr : pyval -> string.
Variable cfg : Settings.

Set Default Proof Using "Type".

(** [f"{v}"] *)
Definition py_str (v : pyval) : string :=
  match v with
  | PStr s => s
  | PNone => "None"
  | PBool true => "True"
  | PBool false => "False"
  | PInt n => str_of_int n
  | _ => py_repr v
  end.

(** *** call_function *)

Definition function_url (path : string) : string :=
  SUPABASE_URL cfg ++ "/functions/v1/" ++ FUNCTION_SLUG cfg ++ path.

(** The single request of [call_function] (lines 90-99): a POST when a body
    is given, a GET otherwise. *)
Definition function_request (path token : string) (body : option pyval) : Request :=
  let url := function_url path in
  let headers := [("Authorization", "Bearer " ++ token);
                  ("Content-Type", "application/json")] in
  match body with
  | Some b => {| req_method := POST; req_url := url; req_headers := headers;
                 req_json := Some b; req_timeout := None |}
  | None => {| req_method := GET; req_url := url; req_headers := headers;
               req_json := None; req_timeout := None |}
  end.

Definition call_function (path token : string) (body : option pyval) (w : World)
  : result pyval * World :=
  let '(r, w1) := requests_send (function_request path token body) w in
  match r with
  | Raise exc =>
      (Return (error_dict (PStr ("Failed to call function: " ++ exc_str exc))), w1)
  | Return resp =>
      match resp_json resp with
      | Raise _ =>
          let text := strip (resp_text resp) in
          let text := if String.eqb text "" then "<empty response>" else text in
          (Return (error_dict (PStr
             ("Invalid JSON response (status " ++ str_of_int (status_code resp)
              ++ "). Response body: " ++ text))), w1)
      | Return data =>
          if negb (ok resp) then
            (err ← py_get data "error" data; Return (error_dict err), w1)
          else (Return data, w1)
      end
  end.

(** *** adapt_text *)

(** Lines 148-158: the key from [st.secrets] when that is a dict, else from
    the environment. *)
Definition lookup_openai_key (w : World) : pyval :=
  let openai_key :=
    match st_secrets w with
    | SecretsDict d => dict_get_none d "OPENAI_API_KEY"
    | _ => PNone
    end in
  if negb (truthy openai_key) then os_getenv w "OPENAI_API_KEY" else openai_key.

Definition model_map : list (string * string) :=
  [("basic", "gpt-3.5-turbo"); ("advanced", "gpt-3.5-turbo"); ("premium", "gpt-4")].

Fixpoint assoc (m : list (string * string)) (k : string) : option string :=
  match m with
  | [] => None
  | (k', v) :: m' => if String.eqb k' k then Some v else assoc m' k
  end.

(** [model_map.get(k, dflt)]: hashing [k] comes first. *)
Definition model_map_get (k : pyval) (dflt : string) : result string :=
  match k with
  | PList _ | PDict _ => Raise TypeError
  | PStr s => Return (match assoc model_map s with Some m => m | None => dflt end)
  | _ => Return dflt
  end.

(** Lines 170-182. *)
Definition build_user_prompt (config : pydict) (text : string) : string :=
  let grade := dict_get_default config "gradeLevel" (PStr "3") in
  let user_prompt :=
    "Rewrite the following text for grade " ++ py_str grade ++ " reading level." in
  let user_prompt :=
    if truthy (dict_get_none config "simplifyVocabulary")
    then user_prompt ++ " Simplify vocabulary." else user_prompt in
  let user_prompt :=
    if truthy (dict_get_none config "addDefinitions")
    then user_prompt ++ " Include brief definitions for complex words in parentheses immediately after the word."
    else user_prompt in
  let user_prompt :=
    if truthy (dict_get_none config "shortParagraphs")
    then user_prompt ++ " Break the output into shorter paragraphs." else user_prompt in
  let user_prompt :=
    if truthy (dict_get_none config "visualBreaks")
    then user_prompt ++ " Add visual breaks such as bullet points or separators where appropriate."
    else user_prompt in
  let user_prompt :=
    if truthy (dict_get_none config "comprehensionQuestions")
    then user_prompt ++ " After the adapted text, include a few comprehension questions about the content."
    else user_prompt in
  user_prompt ++ (nl ++ nl) ++ text.

Definition system_prompt : string :=
  "You are a helpful assistant that adapts educational text for teachers. "
  ++ "Given a target reading grade level and a piece of text, you rewrite "
  ++ "the text to match the specified grade while preserving the original meaning.".

Definition openai_payload (openai_model user_prompt : string) : pyval :=
  PDict [("model", PStr openai_model);
         ("messages",
          PList [PDict [("role", PStr "system"); ("content", PStr system_prompt)];
                 PDict [("role", PStr "user"); ("content", PStr user_prompt)]]);
         ("temperature", PFloat float_0_7);
         ("max_tokens", PInt 1024)].

(** The single request of the direct path (lines 198-208). *)
Definition openai_request (openai_key : pyval) (payload : pyval) : Request :=
  {| req_method := POST;
     req_url := OPENAI_URL;
     req_headers := [("Authorization", "Bearer " ++ py_str openai_key);
                     ("Content-Type", "application/json")];
     req_json := Some payload;
     req_timeout := Some 60%Z |}.

(** Lines 221-230: the metadata of a success. *)
Definition build_metadata (openai_model : string) (data : pyval) : result pydict :=
  let meta := [("model", PStr openai_model)] in
  has_usage ← py_contains "usage" data;
  if has_usage : bool then
    u1 ← py_getitem data "usage";
    prompt_tokens ← py_get u1 "prompt_tokens" PNone;
    u2 ← py_getitem data "usage";
    completion_tokens ← py_get u2 "completion_tokens" PNone;
    u3 ← py_getitem data "usage";
    total_tokens ← py_get u3 "total_tokens" PNone;
    Return (meta ++ [("promptTokens", prompt_tokens);
                     ("completionTokens", completion_tokens);
                     ("totalTokens", total_tokens)])%list
  else Return meta.

(** Lines 216-231, the body of the last [try]. *)
Definition read_openai_response (openai_model : string) (resp : Response)
  : result pyval :=
  data ← resp_json resp;
  choices ← py_get data "choices" (PList []);
  if negb (truthy choices) then
    Return (error_dict (PStr "OpenAI API returned no choices."))
  else
    first ← py_index0 choices;
    message ← py_getitem first "message";
    content ← py_getitem message "content";
    adapted ← py_strip content;
    meta ← build_metadata openai_model data;
    Return (PDict [("adaptedText", PStr adapted); ("metadata", PDict meta)]).

Definition adapt_text (token text : string) (config : pydict) (w : World)
  : result pyval * World :=
  let openai_key := lookup_openai_key w in
  if truthy openai_key then
    match model_map_get (dict_get_none config "aiModel") "gpt-3.5-turbo" with
    | Raise e => (Raise e, w)
    | Return openai_model =>
        let user_prompt := build_user_prompt config text in
        let payload := openai_payload openai_model user_prompt in
        let '(r, w1) := requests_send (openai_request openai_key payload) w in
        match r with
        | Raise exc =>
            (Return (error_dict (PStr ("Failed to call OpenAI API: " ++ exc_str exc))), w1)
        | Return resp =>
            if negb (ok resp) then
              let body := if truthy (PStr (strip (resp_text resp)))
                          then strip (resp_text resp) else "<empty response>" in
              (Return (error_dict (PStr
                 ("OpenAI API error (status " ++ str_of_int (status_code resp)
                  ++ "): " ++ body))), w1)
            else
              match read_openai_response openai_model resp with
              | Return v => (Return v, w1)
              | Raise exc =>
                  (Return (error_dict (PStr
                     ("Failed to parse OpenAI response: " ++ exc_str exc))), w1)
              end
        end
    end
  else
    call_function "/adapt-text" token
      (Some (PDict [("text", PStr text); ("config", PDict config)])) w.

Definition fetch_history (token : string) (w : World) : result pyval * World :=
  call_function "/history" token None w.

Definition fetch_analytics (token : string) (w : World) : result pyval * World :=
  call_function "/analytics" token None w.

(** *** main: the analytics and history tabs *)

(** [isinstance(data, dict) and data.get("error")], as a condition. *)
Definition is_error (data : pyval) : bool :=
  match data with
  | PDict d => truthy (dict_get_none d "error")
  | _ => false
  end.

Definition is_none (v : pyval) : bool :=
  match v with
  | PNone => true
  | _ => false
  end.

(** Lines 448-455; [clicked] is what the "Refresh analytics" button returns,
    [token] the signed-in session's access token. *)
Definition refresh_analytics (clicked : bool) (token : string) (w : World)
  : result unit * World :=
  if clicked || is_none (session_get w "analytics_cache") then
    let '(r, w1) := fetch_analytics token w in
    match r with
    | Raise e => (Raise e, w1)
    | Return data =>
        if is_error data then
          (Return tt, set_session "analytics_cache" PNone w1)
        else
          (Return tt, set_session "analytics_cache" data w1)
    end
  else (Return tt, w).

(** Line 456. *)
Definition read_analytics (w : World) : pyval := session_get w "analytics_cache".

(** Lines 495-502. *)
Definition refresh_history (clicked : bool) (token : string) (w : World)
  : result unit * World :=
  if clicked || is_none (session_get w "history_cache") then
    let '(r, w1) := fetch_history token w in
    match r with
    | Raise e => (Raise e, w1)
    | Return data =>
        if is_error data then
          (Return tt, set_session "history_cache" PNone w1)
        else
          match py_get data "history" (PList []) with
          | Raise e => (Raise e, w1)
          | Return h => (Return tt, set_session "history_cache" h w1)
          end
    end
  else (Return tt, w).

(** Line 503. *)
Definition read_history (w : World) : pyval :=
  session_get_default w "history_cache" (PList []).

(** A list comprehension [[entry for entry in l if cond(entry)]]. *)
Fixpoint comprehension (cond : pyval -> result bool) (l : list pyval)
  : result (list pyval) :=
  match l with
  | [] => Return []
  | entry :: l' =>
      keep ← cond entry;
      rest ← comprehension cond l';
      Return (if keep : bool then entry :: rest else rest)
  end.

(** The condition of line 514. *)
Definition search_cond (search : string) (entry : pyval) : result bool :=
  original ← py_get entry "originalText" (PStr "");
  original ← py_lower original;
  if str_in (lower search) original then Return true
  else
    adapted ← py_get entry "adaptedText" (PStr "");
    adapted ← py_lower adapted;
    Return (str_in (lower search) adapted).

(** The conditions of lines 516 and 518. *)
Definition config_cond (key wanted : string) (entry : pyval) : result bool :=
  config ← py_getitem entry "config";
  v ← py_get config key PNone;
  Return (eq_str v wanted).

(** Lines 512-518. *)
Definition filter_history (search grade_filter model_filter : string)
  (history_data : list pyval) : result (list pyval) :=
  let filtered := history_data in
  filtered ← (if truthy (PStr search)
              then comprehension (search_cond search) filtered
              else Return filtered);
  filtered ← (if negb (String.eqb grade_filter "all")
              then comprehension (config_cond "gradeLevel" grade_filter) filtered
              else Return filtered);
  filtered ← (if negb (String.eqb model_filter "all")
              then comprehension (config_cond "aiModel" model_filter) filtered
              else Return filtered);
  Return filtered.

(** ** The specification's vocabulary *)

Inductive backend := Direct | Proxy.

(** §4.1: the credential lookup, "secret store, then environment, first
    non-empty wins". *)
Definition credential_of (secrets : secrets_attr) (env : gmap string string)
  : option pyval :=
  List.find truthy
    [match secrets with
     | SecretsDict d => dict_get_none d "OPENAI_API_KEY"
     | _ => PNone
     end;
     match env !! "OPENAI_API_KEY" with
     | Some s => PStr s
     | None => PNone
     end].

Definition credential (w : World) : option pyval :=
  credential_of (st_secrets w) (os_environ w).

(** The backend a request is addressed to. *)
Definition handler (q : Request) : option backend :=
  if String.eqb (req_url q) OPENAI_URL then Some Direct
  else if String.eqb (req_url q) (function_url "/adapt-text") then Some Proxy
  else None.

Definition authorization (q : Request) : option string :=
  assoc (req_headers q) "Authorization".

(** The requests one call of [adapt_text] adds to the log. *)
Definition issued (token text : string) (config : pydict) (w : World)
  : list Request :=
  drop (length (sent w)) (sent (snd (adapt_text token text config w))).

(** A change of credentials between two calls. *)
Definition set_credentials (secrets : secrets_attr) (env : gmap string string)
  (w : World) : World :=
  {| st_secrets := secrets;
     os_environ := env;
     session_state := session_state w;
     http := http w;
     sent := sent w |}.

(** §3, §4.5: the two result shapes. *)
Definition ErrorResult (v : pyval) : bool :=
  match v with
  | PDict d => truthy (dict_get_none d "error")
  | _ => false
  end.

Definition AdaptationResult (v : pyval) : bool :=
  match v with
  | PDict d =>
      match dict_get d "adaptedText" with
      | Some (PStr _) =>
          match dict_get d "metadata" with
          | None | Some (PDict _) => true
          | Some _ => false
          end
      | _ => false
      end
  | _ => false
  end.

Definition one_result_shape (r : result pyval) : Prop :=
  exists v, r = Return v /\ xorb (ErrorResult v) (AdaptationResult v) = true.

Fixpoint last_char (s : string) : option ascii :=
  match s with
  | "" => None
  | String c s' => match last_char s' with
                   | Some d => Some d
                   | None => Some c
                   end
  end.

(** [needle] occurs in [hay]. *)
Definition occurs_in (needle hay : string) : Prop :=
  exists a b, hay = a ++ needle ++ b.

(** §4.2: the clauses, in their fixed order. *)
Definition grade_clause (config : pydict) : string :=
  "Rewrite the following text for grade "
  ++ py_str (dict_get_default config "gradeLevel" (PStr "3"))
  ++ " reading level.".

Definition flag_clauses : list (string * string) :=
  [("simplifyVocabulary", " Simplify vocabulary.");
   ("addDefinitions",
    " Include brief definitions for complex words in parentheses immediately after the word.");
   ("shortParagraphs", " Break the output into shorter paragraphs.");
   ("visualBreaks",
    " Add visual breaks such as bullet points or separators where appropriate.");
   ("comprehensionQuestions",
    " After the adapted text, include a few comprehension questions about the content.")].

Definition flag_set (config : pydict) (flag : string) : bool :=
  truthy (dict_get_none config flag).

Definition active_clauses (config : pydict) : list string :=
  map snd (List.filter (fun fc => flag_set config (fst fc)) flag_clauses).

Fixpoint concat_str (l : list string) : string :=
  match l with
  | [] => ""
  | s :: l' => s ++ concat_str l'
  end.

(** §3: the configuration record, and the dictionary [main] builds from the
    sidebar widgets (lines 362-370). *)
Record AdaptationConfig := {
  gradeLevel : string;
  aiModel : string;
  simplifyVocabulary : bool;
  addDefinitions : bool;
  shortParagraphs : bool;
  visualBreaks : bool;
  comprehensionQuestions : bool;
}.

Definition config_dict (c : AdaptationConfig) : pydict :=
  [("gradeLevel", PStr (gradeLevel c));
   ("aiModel", PStr (aiModel c));
   ("simplifyVocabulary", PBool (simplifyVocabulary c));
   ("addDefinitions", PBool (addDefinitions c));
   ("shortParagraphs", PBool (shortParagraphs c));
   ("visualBreaks", PBool (visualBreaks c));
   ("comprehensionQuestions", PBool (comprehensionQuestions c))].

(** §4.3: the fixed table, basic and advanced to the economy model, premium
    to the premium model. *)
Definition economy_model : string := "gpt-3.5-turbo".
Definition premium_model : string := "gpt-4".

Definition resolve_model (name : string) : string :=
  if String.eqb name "premium" then premium_model else economy_model.

Definition enumerated_model (k : pyval) : bool :=
  eq_str k "basic" || eq_str k "advanced" || eq_str k "premium".

(** The text an error message shows for a response body. *)
Definition shown_body (raw : string) : string :=
  if String.eqb (strip raw) "" then "<empty response>" else strip raw.

Fixpoint all_space (s : string) : bool :=
  match s with
  | "" => true
  | String c s' => is_space c && all_space s'
  end.

Definition clause_if (flag : bool) (clause : string) : string :=
  if flag then clause else "".

(** The [content] of the second message of a direct-path payload. *)
Definition user_content (q : Request) : option pyval :=
  match req_json q with
  | Some (PDict d) =>
      match dict_get d "messages" with
      | Some (PList [_; PDict m]) => dict_get m "content"
      | _ => None
      end
  | _ => None
  end.

Definition payload_model (q : Request) : option pyval :=
  match req_json q with
  | Some (PDict d) => dict_get d "model"
  | _ => None
  end.

Definition metadata_model (v : pyval) : option pyval :=
  match v with
  | PDict d =>
      match dict_get d "metadata" with
      | Some (PDict m) => dict_get m "model"
      | _ => None
      end
  | _ => None
  end.

(** §3, §4.6: a history entry as the filters read it, and the conjunction of
    the three filters. *)
Definition text_field (d : pydict) (k : string) : option string :=
  match dict_get d k with
  | None => Some ""
  | Some (PStr s) => Some s
  | Some _ => None
  end.

Definition history_entry (entry : pyval) : bool :=
  match entry with
  | PDict d =>
      match text_field d "originalText", text_field d "adaptedText",
            dict_get d "config" with
      | Some _, Some _, Some (PDict _) => true
      | _, _, _ => false
      end
  | _ => false
  end.

Definition entry_text (entry : pyval) (k : string) : string :=
  match entry with
  | PDict d => match text_field d k with Some s => s | None => "" end
  | _ => ""
  end.

Definition entry_config (entry : pyval) (k : string) : pyval :=
  match entry with
  | PDict d => match dict_get d "config" with
               | Some (PDict c) => dict_get_none c k
               | _ => PNone
               end
  | _ => PNone
  end.

Definition search_ok (search : string) (entry : pyval) : bool :=
  String.eqb search ""
  || str_in (lower search) (lower (entry_text entry "originalText"))
  || str_in (lower search) (lower (entry_text entry "adaptedText")).

Definition choice_ok (key wanted : string) (entry : pyval) : bool :=
  String.eqb wanted "all" || eq_str (entry_config entry key) wanted.

Definition entry_matches (search grade_filter model_filter : string)
  (entry : pyval) : bool :=
  search_ok search entry
  && choice_ok "gradeLevel" grade_filter entry
  && choice_ok "aiModel" model_filter entry.

(** ** The rest of the module *)

(** What a run of [main] shows through [st.warning], [st.error], [st.info]
    and [st.success]. *)
Inductive notice :=
| st_warning (msg : string)
| st_error (msg : string)
| st_info (msg : string)
| st_success (msg : string).

(** [k in st.session_state] *)
Definition session_has (w : World) (k : string) : bool :=
  match session_state w !! k with
  | Some _ => true
  | None => false
  end.

(** [st.session_state.pop(k, None)] *)
Definition pop_session (k : string) (w : World) : World :=
  {| st_secrets := st_secrets w;
     os_environ := os_environ w;
     session_state := delete k (session_state w);
     http := http w;
     sent := sent w |}.

(** The Supabase client library, as the module uses it: the outcome of
    [create_client(SUPABASE_URL, SUPABASE_ANON_KEY)] and the three methods of
    the client's [auth] object. A sign-in or sign-up answers with a pair
    (session, user), where the session may be [None]. *)
Record Supabase := {
  create_client : result pyval;
  sign_in_with_password : string -> string -> result (pyval * pyval);
  auth_sign_up : string -> string -> string -> result (pyval * pyval);
  auth_sign_out : result unit;
}.

(** Lines 38-42. *)
Definition init_supabase (sb : Supabase) (w : World) : result pyval * World :=
  if negb (session_has w "supabase_client") then
    match create_client sb with
    | Raise e => (Raise e, w)
    | Return client =>
        let w1 := set_session "supabase_client" client w in
        (Return (session_get w1 "supabase_client"), w1)
    end
  else (Return (session_get w "supabase_client"), w).

(** Lines 45-51. *)
Definition sign_in (sb : Supabase) (email password : string) (w : World)
  : result pyval * World :=
  let '(supabase, w1) := init_supabase sb w in
  match supabase with
  | Raise e => (Raise e, w1)
  | Return _ =>
      match sign_in_with_password sb email password with
      | Raise e => (Raise e, w1)
      | Return (session, user) =>
          if is_none session then (Return PNone, w1)
          else (Return (PDict [("session", session); ("user", user)]), w1)
      end
  end.

(** Lines 54-64. *)
Definition sign_up (sb : Supabase) (name email password : string) (w : World)
  : result pyval * World :=
  let '(supabase, w1) := init_supabase sb w in
  match supabase with
  | Raise e => (Raise e, w1)
  | Return _ =>
      match auth_sign_up sb name email password with
      | Raise e => (Raise e, w1)
      | Return (session, user) =>
          if is_none session then (Return PNone, w1)
          else (Return (PDict [("session", session); ("user", user)]), w1)
      end
  end.

(** Lines 67-75: whatever [auth.sign_out()] does, the four keys go. *)
Definition sign_out (sb : Supabase) (w : World) : result unit * World :=
  let '(supabase, w1) := init_supabase sb w in
  match supabase with
  | Raise e => (Raise e, w1)
  | Return _ =>
      let w2 := match auth_sign_out sb with
                | Return _ => w1
                | Raise _ => w1
                end in
      (Return tt,
       pop_session "analytics_cache"
         (pop_session "history_cache"
            (pop_session "user" (pop_session "session" w2))))
  end.

(** Lines 272-274 and 291-293: store the session and the user of a result. *)
Definition store_session (r : pyval) (w : World) : result unit * World :=
  match py_getitem r "session" with
  | Raise e => (Raise e, w)
  | Return session =>
      let w1 := set_session "session" session w in
      match py_getitem r "user" with
      | Raise e => (Raise e, w1)
      | Return user => (Return tt, set_session "user" user w1)
      end
  end.

(** Lines 263-276: the "Sign in" button has been pressed. *)
Definition sign_in_pressed (sb : Supabase) (email password : string) (w : World)
  : notice * World :=
  if negb (truthy (PStr email)) || negb (truthy (PStr password)) then
    (st_warning "Please provide email and password", w)
  else
    let '(r, w1) := sign_in sb email password w in
    match r with
    | Raise exc => (st_error ("Sign in failed: " ++ exc_str exc), w1)
    | Return result =>
        if is_none result then
          (st_error "Invalid credentials or email confirmation required", w1)
        else
          let '(s, w2) := store_session result w1 in
          match s with
          | Raise exc => (st_error ("Sign in failed: " ++ exc_str exc), w2)
          | Return _ => (st_success "Signed in successfully", w2)
          end
    end.

(** Lines 282-295: the "Sign up" button has been pressed. *)
Definition sign_up_pressed (sb : Supabase) (name email password : string)
  (w : World) : notice * World :=
  if negb (truthy (PStr name)) || negb (truthy (PStr email))
     || negb (truthy (PStr password)) then
    (st_warning "Please fill in all fields", w)
  else
    let '(r, w1) := sign_up sb name email password w in
    match r with
    | Raise exc => (st_error ("Sign up failed: " ++ exc_str exc), w1)
    | Return result =>
        if is_none result then
          (st_info "Sign up successful. Please check your email to confirm your account.",
           w1)
        else
          let '(s, w2) := store_session result w1 in
          match s with
          | Raise exc => (st_error ("Sign up failed: " ++ exc_str exc), w2)
          | Return _ =>
              (st_success "Account created and signed in successfully", w2)
          end
    end.

(** Lines 256 and 304: the rest of the page is shown only with a session. *)
Definition signed_in (w : World) : bool :=
  negb (is_none (session_get w "session")).

(** [s.split()]: the maximal runs of characters that are not whitespace;
    [cur] is the run being read. *)
Fixpoint split_from (cur s : string) : list string :=
  match s with
  | "" => if String.eqb cur "" then [] else [cur]
  | String c s' =>
      if is_space c then
        (if String.eqb cur "" then [] else [cur]) ++ split_from "" s'
      else split_from (cur ++ String c "") s'
  end.

Definition split (s : string) : list string := split_from "" s.

(** Line 396. *)
Definition word_count (input_text : string) : nat :=
  if truthy (PStr (strip input_text)) then length (split input_text) else 0.

(** Line 397. *)
Definition reading_time (words : nat) : nat :=
  if negb (words =? 0)%nat then (words + 199) / 200 else 0.

(** Line 400: the [disabled] argument of the "Adapt text" button. *)
Definition adapt_disabled (input_text : string) : bool :=
  negb (truthy (PStr (strip input_text))).

(** Lines 405-407. *)
Definition init_output (w : World) : World :=
  if negb (session_has w "output_text")
  then set_session "metadata" PNone (set_session "output_text" (PStr "") w)
  else w.

(** Lines 405-416: the "Adapt text" button has been pressed. *)
Definition adapt_pressed (token input_text : string) (config : pydict) (w : World)
  : result notice * World :=
  let w0 := init_output w in
  let '(r, w1) := adapt_text token input_text config w0 in
  match r with
  | Raise e => (Raise e, w1)
  | Return result =>
      if is_error result then
        match py_getitem result "error" with
        | Raise e => (Raise e, w1)
        | Return err => (Return (st_error ("Adaptation failed: " ++ py_str err)), w1)
        end
      else
        match py_get result "adaptedText" (PStr "") with
        | Raise e => (Raise e, w1)
        | Return adapted =>
            let w2 := set_session "output_text" adapted w1 in
            match py_get result "metadata" (PDict []) with
            | Raise e => (Raise e, w2)
            | Return metadata =>
                (Return (st_success "Text adapted successfully!"),
                 set_session "metadata" metadata w2)
            end
        end
  end.

(** The main recursion of a comprehension stops at the first entry whose
    condition raises; [first_failure] names that exception. *)
Fixpoint first_failure (cond : pyval -> result bool) (l : list pyval)
  : option pyexc :=
  match l with
  | [] => None
  | entry :: l' =>
      match cond entry with
      | Raise e => Some e
      | Return _ => first_failure cond l'
      end
  end.

(** A field of a request's JSON payload. *)
Definition payload_field (q : Request) (k : string) : option pyval :=
  match req_json q with
  | Some (PDict d) => dict_get d k
  | _ => None
  end.

(** *** Sample data for the authentication and button handlers *)

Definition sample_supabase : Supabase :=
  {| create_client := Return (PStr "client");
     sign_in_with_password := fun email password =>
       if String.eqb email "ann@example.org" && String.eqb password "secret"
       then Return (PStr "session-1", PStr "ann")
       else Return (PNone, PNone);
     auth_sign_up := fun name email password => Return (PNone, PStr email);
     auth_sign_out := Raise connection_refused |}.

Definition broken_supabase : Supabase :=
  {| create_client := Raise connection_refused;
     sign_in_with_password := fun _ _ => Raise connection_refused;
     auth_sign_up := fun _ _ _ => Raise connection_refused;
     auth_sign_out := Raise connection_refused |}.

Definition signed_in_session : gmap string pyval :=
  {[ "supabase_client" := PStr "client";
     "session" := PStr "session-0";
     "user" := PStr "bob";
     "grade_level" := PStr "5";
     "analytics_cache" := PDict [("stats", PDict [("totalAdaptations", PInt 3)])];
     "history_cache" := PList sample_history ]}.

Definition client_only_session : gmap string pyval :=
  {[ "supabase_client" := PStr "client" ]}.

Definition shown_output_session : gmap string pyval :=
  {[ "output_text" := PStr "An earlier result.";
     "metadata" := PDict [("model", PStr "gpt-4")] ]}.

Definition no_choices : Response :=
  {| status_code := 200;
     resp_text := "";
     resp_json := Return (PDict [("id", PStr "cmpl-1"); ("choices", PList [])]) |}.

Definition completion_null_usage : Response :=
  {| status_code := 200;
     resp_text := "";
     resp_json :=
       Return (PDict
         [("choices",
           PList [PDict [("message",
                          PDict [("role", PStr "assistant");
                                 ("content", PStr " The cat sat. ")])]]);
          ("usage", PNone)]) |}.

Definition server_error_object : Response :=
  {| status_code := 500; resp_text := "{}"; resp_json := Return (PDict []) |}.

Definition history_payload : Response :=
  {| status_code := 200;
     resp_text := "";
     resp_json := Return (PDict [("history", PList sample_history)]) |}.

Definition null_text_entry : pydict :=
  [("id", PStr "d"); ("originalText", PNone); ("adaptedText", PStr "Text.");
   ("config", PDict [("gradeLevel", PStr "2")])].

Definition no_config_entry : pydict :=
  [("id", PStr "e"); ("originalText", PStr "Text."); ("adaptedText", PStr "Text.")].

Definition completion_body : pydict :=
  [("choices",
    PList [PDict [("message",
                   PDict [("role", PStr "assistant");
                          ("content", PStr " The cat sat. ")])]]);
   ("usage",
    PDict [("prompt_tokens", PInt 42);
           ("completion_tokens", PInt 7);
           ("total_tokens", PInt 49)])].

(** ** Strings: basic facts *)

Lemma append_cons (x : ascii) (a b : string) :
  String x a ++ b = String x (a ++ b).
Proof. reflexivity. Qed.

Lemma append_nil_l (a : string) : "" ++ a = a.
Proof. reflexivity. Qed.

Lemma append_assoc (a b c : string) : (a ++ b) ++ c = a ++ (b ++ c).
Proof.
  induction a as [|x a IH]; [reflexivity|].
  now rewrite !append_cons, IH.
Qed.

Lemma append_nil_r (a : string) : a ++ "" = a.
Proof.
  induction a as [|x a IH]; [reflexivity|]. now rewrite append_cons, IH.
Qed.

Lemma occurs_in_refl (s : string) : occurs_in s s.
Proof. exists "", "". now rewrite append_nil_l, append_nil_r. Qed.

Lemma occurs_in_app_l (n a h : string) : occurs_in n h -> occurs_in n (a ++ h).
Proof.
  intros (x & y & ->). exists (a ++ x), y. now rewrite append_assoc.
Qed.

Lemma occurs_in_app_r (n h b : string) : occurs_in n h -> occurs_in n (h ++ b).
Proof.
  intros (x & y & ->). exists x, (y ++ b). now rewrite !append_assoc.
Qed.

Lemma startswith_spec (p s : string) :
  startswith p s = true <-> exists t, s = p ++ t.
Proof.
  revert s. induction p as [|a p IH]; intros s; simpl.
  - split; [intros _; now exists s | reflexivity].
  - destruct s as [|b s].
    + split; [discriminate | intros [t Ht]; discriminate].
    + rewrite andb_true_iff, Ascii.eqb_eq, IH. split.
      * intros [-> [t ->]]. now exists t.
      * intros [t Ht]. rewrite append_cons in Ht. injection Ht as -> ->.
        split; [reflexivity | now exists t].
Qed.

Lemma str_in_spec (needle hay : string) :
  str_in needle hay = true <-> occurs_in needle hay.
Proof.
  induction hay as [|c hay IH].
  - simpl. rewrite orb_false_r, startswith_spec. split.
    + intros [t Ht]. exists "", t. exact Ht.
    + intros (a & b & H). destruct a; [now exists b | discriminate].
  - cbn [str_in]. rewrite orb_true_iff, IH, startswith_spec. split.
    + intros [[t Ht] | (a & b & Ht)].
      * exists "", t. exact Ht.
      * exists (String c a), b. now rewrite append_cons, Ht.
    + intros (a & b & Ht). destruct a as [|x a].
      * left. now exists b.
      * right. rewrite append_cons in Ht. injection Ht as _ Ht. now exists a, b.
Qed.

Lemma last_char_app (s t : string) :
  last_char (s ++ t)
  = match last_char t with Some c => Some c | None => last_char s end.
Proof.
  induction s as [|x s IH].
  - rewrite append_nil_l. now destruct (last_char t).
  - rewrite append_cons. cbn [last_char]. rewrite IH.
    now destruct (last_char t).
Qed.

Lemma function_url_adapt_not_openai : function_url "/adapt-text" <> OPENAI_URL.
Proof.
  intros H. apply (f_equal last_char) in H. unfold function_url in H.
  rewrite !last_char_app in H. discriminate H.
Qed.

(** ** Provider selection *)

Lemma credential_lookup (w : World) :
  credential w
  = if truthy (lookup_openai_key w) then Some (lookup_openai_key w) else None.
Proof.
  unfold credential, credential_of, lookup_openai_key, os_getenv.
  cbn [List.find].
  destruct (truthy match st_secrets w with
                   | SecretsDict d => dict_get_none d "OPENAI_API_KEY"
                   | _ => PNone
                   end) eqn:Hs; cbn [negb].
  - now rewrite Hs.
  - destruct (truthy match os_environ w !! "OPENAI_API_KEY" with
                     | Some s => PStr s
                     | None => PNone
                     end); reflexivity.
Qed.

(** The state a call of [adapt_text] leaves behind: the world it was given,
    with at most one request added to the log. *)
Lemma adapt_text_world (token text : string) (config : pydict) (w : World) :
  snd (adapt_text token text config w)
  = if truthy (lookup_openai_key w) then
      match model_map_get (dict_get_none config "aiModel") "gpt-3.5-turbo" with
      | Raise _ => w
      | Return m =>
          log_request
            (openai_request (lookup_openai_key w)
               (openai_payload m (build_user_prompt config text))) w
      end
    else
      log_request
        (function_request "/adapt-text" token
           (Some (PDict [("text", PStr text); ("config", PDict config)]))) w.
Proof.
  unfold adapt_text, call_function, requests_send.
  destruct (truthy (lookup_openai_key w)).
  - destruct (model_map_get _ _) as [m|e]; [|reflexivity].
    destruct (http w _) as [resp|exc]; [|reflexivity].
    destruct (negb (ok resp)); [reflexivity|].
    now destruct (read_openai_response m resp).
  - destruct (http w _) as [resp|exc]; [|reflexivity].
    destruct (resp_json resp) as [data|e]; [|reflexivity].
    now destruct (negb (ok resp)).
Qed.

Lemma model_map_get_hashable (k : pyval) (dflt : string) :
  model_map_get k dflt
  = if hashable k
    then Return (match k with
                 | PStr s => match assoc model_map s with
                             | Some m => m
                             | None => dflt
                             end
                 | _ => dflt
                 end)
    else Raise TypeError.
Proof. now destruct k. Qed.

Lemma handler_openai (key payload : pyval) :
  handler (openai_request key payload) = Some Direct.
Proof. unfold handler. cbn [req_url openai_request]. now rewrite String.eqb_refl. Qed.

Lemma handler_function (token : string) (body : option pyval) :
  handler (function_request "/adapt-text" token body) = Some Proxy.
Proof.
  unfold handler.
  replace (req_url (function_request "/adapt-text" token body))
    with (function_url "/adapt-text") by now destruct body.
  destruct (String.eqb_spec (function_url "/adapt-text") OPENAI_URL) as [E|_].
  - now apply function_url_adapt_not_openai in E.
  - now rewrite String.eqb_refl.
Qed.

Lemma issued_spec (token text : string) (config : pydict) (w : World) :
  issued token text config w
  = match credential w with
    | Some key =>
        match model_map_get (dict_get_none config "aiModel") "gpt-3.5-turbo" with
        | Raise _ => []
        | Return m =>
            [openai_request key (openai_payload m (build_user_prompt config text))]
        end
    | None =>
        [function_request "/adapt-text" token
           (Some (PDict [("text", PStr text); ("config", PDict config)]))]
    end.
Proof.
  unfold issued. rewrite adapt_text_world, credential_lookup.
  destruct (truthy (lookup_openai_key w)).
  - destruct (model_map_get _ _); cbn [sent log_request].
    + apply drop_app_length.
    + apply drop_all.
  - cbn [sent log_request]. apply drop_app_length.
Qed.

(** C1. Every call of [adapt_text] looks the credential up afresh (secret
    store, then environment, first non-empty wins): when one is found, the
    call's request goes to the direct backend and carries that credential
    (the call stops before sending when the aiModel value cannot be hashed);
    when none is found, the call issues exactly one request, to the proxy
    backend, with the caller's token. The call changes nothing but the
    request log, so after any change of credentials the next call is
    served by the backend the new credentials select. *)
Theorem provider_selected_per_call
  (token text : string) (config : pydict) (w : World) :
  let w' := snd (adapt_text token text config w) in
  let reqs := issued token text config w in
  (sent w' = (sent w ++ reqs)%list
   /\ st_secrets w' = st_secrets w /\ os_environ w' = os_environ w
   /\ session_state w' = session_state w /\ http w' = http w)
  /\ match credential w with
     | Some key =>
         map handler reqs
         = (if hashable (dict_get_none config "aiModel")
            then [Some Direct] else [])
         /\ Forall (fun q => authorization q = Some ("Bearer " ++ py_str key)) reqs
     | None =>
         map handler reqs = [Some Proxy]
         /\ Forall (fun q => authorization q = Some ("Bearer " ++ token)) reqs
     end
  /\ (forall secrets env token2 text2 config2,
        map handler (issued token2 text2 config2 (set_credentials secrets env w'))
        = match credential_of secrets env with
          | Some _ => if hashable (dict_get_none config2 "aiModel")
                      then [Some Direct] else []
          | None => [Some Proxy]
          end).
Proof.
  cbv zeta. split; [|split].
  - rewrite issued_spec, adapt_text_world, credential_lookup.
    destruct (truthy (lookup_openai_key w)).
    + destruct (model_map_get _ _); cbn [sent log_request st_secrets os_environ
        session_state http]; rewrite ?app_nil_r; auto.
    + cbn; auto.
  - rewrite issued_spec. destruct (credential w) as [key|].
    + rewrite model_map_get_hashable.
      destruct (hashable _); cbn [map]; [|split; [reflexivity|constructor]].
      rewrite handler_openai. split; [reflexivity|].
      constructor; [reflexivity|constructor].
    + cbn [map]. rewrite handler_function. split; [reflexivity|].
      constructor; [reflexivity|constructor].
  - intros secrets env token2 text2 config2. rewrite issued_spec.
    unfold credential. cbn [st_secrets os_environ set_credentials].
    destruct (credential_of secrets env) as [key|].
    + rewrite model_map_get_hashable.
      destruct (hashable _); cbn [map]; [|reflexivity].
      now rewrite handler_openai.
    + cbn [map]. now rewrite handler_function.
Qed.

(** ** Result shapes *)

Ltac bind_cases :=
  repeat match goal with
  | |- context [mbind _ ?m] =>
      let E := fresh "E" in
      destruct m eqn:E; cbn [mbind result_bind]
  | |- context [if ?b then _ else _] =>
      let E := fresh "E" in destruct b eqn:E
  end.

Lemma message_truthy (c : ascii) (a b : string) :
  truthy (PStr (String c a ++ b)) = true.
Proof. reflexivity. Qed.

Lemma error_message_shape (c : ascii) (a b : string) :
  one_result_shape (Return (error_dict (PStr (String c a ++ b)))).
Proof. eexists. split; reflexivity. Qed.

Lemma build_metadata_model (m : string) (data : pyval) (meta : pydict) :
  build_metadata m data = Return meta -> dict_get meta "model" = Some (PStr m).
Proof.
  unfold build_metadata. bind_cases; intros H; try discriminate H;
    injection H as <-; reflexivity.
Qed.

Lemma read_openai_response_shape (m : string) (resp : Response) (v : pyval) :
  read_openai_response m resp = Return v ->
  v = error_dict (PStr "OpenAI API returned no choices.")
  \/ exists adapted meta,
       v = PDict [("adaptedText", PStr adapted); ("metadata", PDict meta)]
       /\ dict_get meta "model" = Some (PStr m).
Proof.
  unfold read_openai_response.
  destruct (resp_json resp) as [data|]; cbn [mbind result_bind]; [|discriminate].
  destruct (py_get data _ _) as [choices|]; cbn [mbind result_bind]; [|discriminate].
  destruct (negb (truthy choices)); [intros [= <-]; now left|].
  destruct (py_index0 choices) as [first|]; cbn [mbind result_bind]; [|discriminate].
  destruct (py_getitem first _) as [message|]; cbn [mbind result_bind]; [|discriminate].
  destruct (py_getitem message _) as [content|]; cbn [mbind result_bind]; [|discriminate].
  destruct (py_strip content) as [adapted|]; cbn [mbind result_bind]; [|discriminate].
  destruct (build_metadata m data) as [meta|] eqn:E; cbn [mbind result_bind];
    [|discriminate].
  intros [= <-]. right. exists adapted, meta. split; [reflexivity|].
  now apply build_metadata_model in E.
Qed.

(** C2 (amended). On the direct path a configuration whose aiModel can be
    hashed always yields exactly one of the two result shapes, whatever the
    backend answers. On the proxy path a transport failure and an
    unparsable body yield an ErrorResult, and the parsed body of a
    successful response is returned unchanged. *)
Theorem result_shape_by_path
  (token text : string) (config : pydict) (w : World) :
  let r := fst (adapt_text token text config w) in
  match credential w with
  | Some _ =>
      if hashable (dict_get_none config "aiModel")
      then one_result_shape r
      else r = Raise TypeError
  | None =>
      match http w (function_request "/adapt-text" token
                      (Some (PDict [("text", PStr text); ("config", PDict config)]))) with
      | Raise _ => one_result_shape r
      | Return resp =>
          match resp_json resp with
          | Raise _ => one_result_shape r
          | Return data => if ok resp then r = Return data else True
          end
      end
  end.
Proof.
  cbv zeta. rewrite credential_lookup. unfold adapt_text, call_function, requests_send.
  destruct (truthy (lookup_openai_key w)).
  - rewrite model_map_get_hashable. destruct (hashable _); [|reflexivity].
    destruct (http w _) as [resp|exc]; [|apply error_message_shape].
    destruct (negb (ok resp)); [apply error_message_shape|].
    destruct (read_openai_response _ resp) as [v|exc] eqn:E;
      [|apply error_message_shape].
    apply read_openai_response_shape in E as [->|(adapted & meta & -> & _)];
      eexists; split; reflexivity.
  - destruct (http w _) as [resp|exc]; [|apply error_message_shape].
    destruct (resp_json resp) as [data|e].
    + destruct (ok resp); cbn [negb fst]; [reflexivity|exact I].
    + cbn [fst]. destruct (String.eqb (strip (resp_text resp)) "");
        apply error_message_shape.
Qed.

(** ** The user prompt *)

Lemma build_user_prompt_clauses (config : pydict) (text : string) :
  build_user_prompt config text
  = concat_str (grade_clause config :: active_clauses config)
    ++ (nl ++ nl) ++ text.
Proof.
  unfold build_user_prompt, active_clauses, flag_clauses, grade_clause, flag_set.
  cbn [List.filter map fst snd concat_str].
  destruct (truthy (dict_get_none config "simplifyVocabulary"));
  destruct (truthy (dict_get_none config "addDefinitions"));
  destruct (truthy (dict_get_none config "shortParagraphs"));
  destruct (truthy (dict_get_none config "visualBreaks"));
  destruct (truthy (dict_get_none config "comprehensionQuestions"));
  cbn [List.filter map fst snd concat_str];
  now rewrite ?append_assoc, ?append_nil_r.
Qed.

(** C3. The user prompt is the grade clause followed by the clauses of the
    flags that are set, in the order simplifyVocabulary, addDefinitions,
    shortParagraphs, visualBreaks, comprehensionQuestions, then a blank line
    and the input text unchanged; with every flag false only the grade
    clause and the text remain; and this prompt is the user message of the
    request the direct path sends. *)
Theorem user_prompt_clause_order (text : string) :
  (forall config : pydict,
     build_user_prompt config text
     = concat_str (grade_clause config :: active_clauses config)
       ++ (nl ++ nl) ++ text)
  /\ (forall c : AdaptationConfig,
        build_user_prompt (config_dict c) text
        = ("Rewrite the following text for grade " ++ gradeLevel c
           ++ " reading level.")
          ++ clause_if (simplifyVocabulary c) " Simplify vocabulary."
          ++ clause_if (addDefinitions c)
               " Include brief definitions for complex words in parentheses immediately after the word."
          ++ clause_if (shortParagraphs c)
               " Break the output into shorter paragraphs."
          ++ clause_if (visualBreaks c)
               " Add visual breaks such as bullet points or separators where appropriate."
          ++ clause_if (comprehensionQuestions c)
               " After the adapted text, include a few comprehension questions about the content."
          ++ (nl ++ nl) ++ text)
  /\ (forall grade model : string,
        build_user_prompt
          (config_dict {| gradeLevel := grade; aiModel := model;
                          simplifyVocabulary := false; addDefinitions := false;
                          shortParagraphs := false; visualBreaks := false;
                          comprehensionQuestions := false |}) text
        = ("Rewrite the following text for grade " ++ grade ++ " reading level.")
          ++ (nl ++ nl) ++ text)
  /\ (forall (config : pydict) (token : string) (w : World),
        map user_content (issued token text config w)
        = match credential w with
          | Some _ =>
              if hashable (dict_get_none config "aiModel")
              then [Some (PStr (build_user_prompt config text))]
              else []
          | None => [None]
          end).
Proof.
  split; [|split; [|split]].
  - intros config. apply build_user_prompt_clauses.
  - intros [g m [] [] [] [] []]; unfold build_user_prompt, clause_if;
      cbn [config_dict dict_get_default dict_get_none dict_get String.eqb
           Ascii.eqb Bool.eqb truthy py_str gradeLevel simplifyVocabulary
           addDefinitions shortParagraphs visualBreaks comprehensionQuestions];
      now rewrite ?append_assoc, ?append_nil_l, ?append_nil_r.
  - intros g m. unfold build_user_prompt.
    cbn [config_dict dict_get_default dict_get_none dict_get String.eqb
         Ascii.eqb Bool.eqb truthy py_str gradeLevel simplifyVocabulary
         addDefinitions shortParagraphs visualBreaks comprehensionQuestions].
    now rewrite ?append_assoc.
  - intros config token w. rewrite issued_spec.
    destruct (credential w); [|reflexivity].
    rewrite model_map_get_hashable. now destruct (hashable _).
Qed.

(** ** The direct path *)

Lemma credential_key (w : World) (key : pyval) :
  credential w = Some key ->
  truthy (lookup_openai_key w) = true /\ lookup_openai_key w = key.
Proof.
  rewrite credential_lookup. destruct (truthy (lookup_openai_key w)).
  - intros [= <-]. now split.
  - discriminate.
Qed.

Lemma credential_none (w : World) :
  credential w = None -> truthy (lookup_openai_key w) = false.
Proof.
  rewrite credential_lookup. now destruct (truthy (lookup_openai_key w)).
Qed.

(** The value a direct call returns once the backend has answered. *)
Lemma adapt_text_direct (token text : string) (config : pydict) (w : World)
  (key : pyval) (m : string) (resp : Response) :
  credential w = Some key ->
  model_map_get (dict_get_none config "aiModel") "gpt-3.5-turbo" = Return m ->
  http w (openai_request key (openai_payload m (build_user_prompt config text)))
  = Return resp ->
  fst (adapt_text token text config w)
  = if ok resp then
      match read_openai_response m resp with
      | Return v => Return v
      | Raise exc =>
          Return (error_dict (PStr ("Failed to parse OpenAI response: " ++ exc_str exc)))
      end
    else
      Return (error_dict (PStr
        ("OpenAI API error (status " ++ str_of_int (status_code resp) ++ "): "
         ++ shown_body (resp_text resp)))).
Proof.
  intros [Ht <-]%credential_key Hm Hr.
  unfold adapt_text, requests_send. rewrite Ht, Hm, Hr.
  destruct (ok resp); cbn [negb].
  - now destruct (read_openai_response m resp).
  - unfold shown_body. cbn [truthy fst].
    now destruct (String.eqb (strip (resp_text resp)) "").
Qed.

Lemma model_map_get_enumerated (name : string) :
  In name ["basic"; "advanced"; "premium"] ->
  model_map_get (PStr name) "gpt-3.5-turbo" = Return (resolve_model name).
Proof.
  intros [<-|[<-|[<-|[]]]]; reflexivity.
Qed.

(** C4. premium resolves to "gpt-4", basic and advanced both to
    "gpt-3.5-turbo"; the resolved identifier is the model of the request the
    direct path sends and the model recorded in the metadata of a success. *)
Theorem resolved_model_recorded
  (name token text : string) (config : pydict) (w : World) :
  In name ["basic"; "advanced"; "premium"] ->
  dict_get config "aiModel" = Some (PStr name) ->
  (resolve_model "premium" = "gpt-4"
   /\ resolve_model "basic" = "gpt-3.5-turbo"
   /\ resolve_model "advanced" = "gpt-3.5-turbo")
  /\ model_map_get (dict_get_none config "aiModel") "gpt-3.5-turbo"
     = Return (resolve_model name)
  /\ map payload_model (issued token text config w)
     = match credential w with
       | Some _ => [Some (PStr (resolve_model name))]
       | None => [None]
       end
  /\ (forall v, credential w <> None ->
        fst (adapt_text token text config w) = Return v ->
        AdaptationResult v = true ->
        metadata_model v = Some (PStr (resolve_model name))).
Proof.
  intros Hin Hcfg.
  assert (Hm : model_map_get (dict_get_none config "aiModel") "gpt-3.5-turbo"
               = Return (resolve_model name)).
  { unfold dict_get_none, dict_get_default. rewrite Hcfg.
    now apply model_map_get_enumerated. }
  split; [now repeat split|]. split; [exact Hm|]. split.
  - rewrite issued_spec, Hm. now destruct (credential w).
  - intros v Hc Hv Hshape. destruct (credential w) as [key|] eqn:Hk; [|easy].
    destruct (credential_key _ _ Hk) as [Ht <-].
    revert Hv. unfold adapt_text, requests_send. rewrite Ht, Hm.
    destruct (http w _) as [resp|exc]; cbn [fst].
    + destruct (negb (ok resp)); cbn [fst].
      * intros [= <-]. discriminate Hshape.
      * destruct (read_openai_response _ resp) as [v'|exc] eqn:E; cbn [fst].
        -- intros [= ->].
           apply read_openai_response_shape in E
             as [->|(adapted & meta & -> & Hmodel)]; [discriminate Hshape|].
           cbn. exact Hmodel.
        -- intros [= <-]. discriminate Hshape.
    + intros [= <-]. discriminate Hshape.
Qed.

Lemma model_map_get_unknown (k : pyval) :
  hashable k = true -> enumerated_model k = false ->
  model_map_get k "gpt-3.5-turbo" = Return "gpt-3.5-turbo".
Proof.
  intros Hh He. destruct k as [| | | |s| |];
    try reflexivity; try discriminate Hh.
  unfold enumerated_model in He. cbn [eq_str] in He.
  apply orb_false_elim in He as [He Hp]. apply orb_false_elim in He as [Hb Ha].
  unfold model_map_get, model_map. cbn [assoc].
  rewrite (String.eqb_sym "basic"), Hb, (String.eqb_sym "advanced"), Ha,
    (String.eqb_sym "premium"), Hp. reflexivity.
Qed.

(** C10 (amended). An aiModel value that can be hashed (a string, a number,
    a boolean, None) and is none of "basic", "advanced", "premium" resolves
    to "gpt-3.5-turbo" without an error, and so does a missing aiModel key;
    the request of the direct path then names that model. *)
Theorem unknown_model_defaults :
  (forall k : pyval,
     hashable k = true -> enumerated_model k = false ->
     model_map_get k "gpt-3.5-turbo" = Return "gpt-3.5-turbo")
  /\ (forall config : pydict,
        dict_get config "aiModel" = None ->
        model_map_get (dict_get_none config "aiModel") "gpt-3.5-turbo"
        = Return "gpt-3.5-turbo")
  /\ (forall (config : pydict) (token text : string) (w : World),
        hashable (dict_get_none config "aiModel") = true ->
        enumerated_model (dict_get_none config "aiModel") = false ->
        map payload_model (issued token text config w)
        = match credential w with
          | Some _ => [Some (PStr "gpt-3.5-turbo")]
          | None => [None]
          end).
Proof.
  split; [exact model_map_get_unknown|]. split.
  - intros config H. unfold dict_get_none, dict_get_default. now rewrite H.
  - intros config token text w Hh He.
    rewrite issued_spec, (model_map_get_unknown _ Hh He).
    now destruct (credential w).
Qed.

Lemma lstrip_split (s : string) :
  exists a, s = a ++ lstrip s /\ all_space a = true.
Proof.
  induction s as [|c s [a [Hs Ha]]].
  - now exists "".
  - cbn [lstrip]. destruct (is_space c) eqn:Hc.
    + exists (String c a). rewrite append_cons, <- Hs. split; [reflexivity|].
      cbn [all_space]. now rewrite Hc, Ha.
    + now exists "".
Qed.

Lemma rstrip_split (s : string) :
  exists b, s = rstrip s ++ b /\ all_space b = true.
Proof.
  induction s as [|c s [b [Hs Hb]]].
  - now exists "".
  - cbn [rstrip]. destruct (is_space c) eqn:Hc; cbn [andb].
    + destruct (String.eqb_spec (rstrip s) "") as [E|E].
      * exists (String c b). rewrite append_nil_l. split.
        -- rewrite E, append_nil_l in Hs. now rewrite <- Hs.
        -- cbn [all_space]. now rewrite Hc, Hb.
      * exists b. rewrite append_cons, <- Hs. now split.
    + exists b. rewrite append_cons, <- Hs. now split.
Qed.

(** [strip] removes surrounding whitespace and nothing else. *)
Lemma strip_split (s : string) :
  exists a b, s = a ++ strip s ++ b /\ all_space a = true /\ all_space b = true.
Proof.
  destruct (lstrip_split s) as [a [Hs Ha]].
  destruct (rstrip_split (lstrip s)) as [b [Hl Hb]].
  exists a, b. unfold strip. now rewrite <- Hl, <- Hs.
Qed.

Lemma shown_body_blank (raw : string) :
  strip raw = "" -> shown_body raw = "<empty response>".
Proof. intros H. unfold shown_body. now rewrite H. Qed.

Lemma shown_body_text (raw : string) :
  strip raw <> "" -> shown_body raw = strip raw.
Proof.
  intros H. unfold shown_body. now destruct (String.eqb_spec (strip raw) "").
Qed.


(** ** The proxy path *)

(** The value [call_function] returns once the backend has answered. *)
Lemma call_function_answer (path token : string) (body : option pyval)
  (w : World) (resp : Response) :
  http w (function_request path token body) = Return resp ->
  fst (call_function path token body w)
  = match resp_json resp with
    | Raise _ =>
        Return (error_dict (PStr
          ("Invalid JSON response (status " ++ str_of_int (status_code resp)
           ++ "). Response body: " ++ shown_body (resp_text resp))))
    | Return data =>
        if ok resp then Return data
        else err ← py_get data "error" data; Return (error_dict err)
    end.
Proof.
  intros Hr. unfold call_function, requests_send. rewrite Hr.
  destruct (resp_json resp) as [data|e].
  - now destruct (ok resp).
  - unfold shown_body. cbn [fst].
    now destruct (String.eqb (strip (resp_text resp)) "").
Qed.

Lemma call_function_world (path token : string) (body : option pyval) (w : World) :
  snd (call_function path token body w)
  = log_request (function_request path token body) w.
Proof.
  unfold call_function, requests_send.
  destruct (http w _) as [resp|exc]; [|reflexivity].
  destruct (resp_json resp) as [data|e]; [|reflexivity].
  now destruct (negb (ok resp)).
Qed.

Lemma call_function_transport_failure (path token : string)
  (body : option pyval) (w : World) (exc : pyexc) :
  http w (function_request path token body) = Raise exc ->
  fst (call_function path token body w)
  = Return (error_dict (PStr ("Failed to call function: " ++ exc_str exc))).
Proof.
  intros Hr. unfold call_function, requests_send. now rewrite Hr.
Qed.

(** C6. A proxy response whose body does not parse as JSON yields an
    ErrorResult whose message contains the status code and the body text
    (surrounding whitespace stripped), or the placeholder "<empty response>"
    when the stripped body is blank. *)
Theorem proxy_invalid_json
  (path token : string) (body : option pyval) (w : World)
  (resp : Response) (e : pyexc) :
  http w (function_request path token body) = Return resp ->
  resp_json resp = Raise e ->
  let msg := "Invalid JSON response (status " ++ str_of_int (status_code resp)
             ++ "). Response body: " ++ shown_body (resp_text resp) in
  fst (call_function path token body w) = Return (error_dict (PStr msg))
  /\ ErrorResult (error_dict (PStr msg)) = true
  /\ occurs_in (str_of_int (status_code resp)) msg
  /\ occurs_in (shown_body (resp_text resp)) msg
  /\ (strip (resp_text resp) = "" -> occurs_in "<empty response>" msg)
  /\ (strip (resp_text resp) <> "" -> occurs_in (strip (resp_text resp)) msg)
  /\ (exists a b, resp_text resp = a ++ strip (resp_text resp) ++ b
                  /\ all_space a = true /\ all_space b = true).
Proof.
  intros Hr Hj msg.
  assert (Hcode : occurs_in (str_of_int (status_code resp)) msg).
  { apply occurs_in_app_l, occurs_in_app_r, occurs_in_refl. }
  assert (Hbody : occurs_in (shown_body (resp_text resp)) msg).
  { apply occurs_in_app_l, occurs_in_app_l, occurs_in_app_l, occurs_in_refl. }
  split; [|split; [reflexivity|split; [exact Hcode|split; [exact Hbody|]]]].
  - rewrite (call_function_answer _ _ _ _ _ Hr), Hj. reflexivity.
  - split; [|split].
    + intros Hb. now rewrite <- (shown_body_blank _ Hb).
    + intros Hb. now rewrite <- (shown_body_text _ Hb).
    + apply strip_split.
Qed.

(** C7. What [call_function] does with a parsed body and a non-success
    status: for an object it returns an error object holding the body's
    "error" field when there is one and the whole body otherwise; for any
    other JSON value (a list, a string, a number, null) the lookup raises
    AttributeError and nothing is returned. *)
Theorem proxy_error_status
  (path token : string) (body : option pyval) (w : World)
  (resp : Response) (data : pyval) :
  http w (function_request path token body) = Return resp ->
  resp_json resp = Return data ->
  ok resp = false ->
  fst (call_function path token body w)
  = match data with
    | PDict d =>
        Return (error_dict (match dict_get d "error" with
                            | Some err => err
                            | None => data
                            end))
    | _ => Raise AttributeError
    end.
Proof.
  intros Hr Hj Hok.
  rewrite (call_function_answer _ _ _ _ _ Hr), Hj, Hok.
  now destruct data.
Qed.

(** ** The history and analytics caches *)

Lemma is_error_ErrorResult (v : pyval) : is_error v = ErrorResult v.
Proof. reflexivity. Qed.

Lemma session_get_set (k : string) (v : pyval) (w : World) :
  session_get (set_session k v w) k = v.
Proof.
  unfold session_get, set_session. cbn [session_state].
  now rewrite lookup_insert_eq.
Qed.

Lemma session_get_default_set (k : string) (v dflt : pyval) (w : World) :
  session_get_default (set_session k v w) k dflt = v.
Proof.
  unfold session_get_default, set_session. cbn [session_state].
  now rewrite lookup_insert_eq.
Qed.

Lemma session_set_other (k k' : string) (v : pyval) (w : World) :
  k <> k' -> session_state (set_session k v w) !! k' = session_state w !! k'.
Proof.
  intros H. unfold set_session. cbn [session_state].
  now rewrite lookup_insert_ne.
Qed.

Lemma refresh_analytics_fetched (clicked : bool) (token : string) (w : World)
  (data : pyval) :
  clicked || is_none (session_get w "analytics_cache") = true ->
  fst (fetch_analytics token w) = Return data ->
  refresh_analytics clicked token w
  = (Return tt,
     set_session "analytics_cache" (if ErrorResult data then PNone else data)
       (snd (fetch_analytics token w))).
Proof.
  intros Ht Hf. unfold refresh_analytics. rewrite Ht.
  destruct (fetch_analytics token w) as [r w1]. cbn [fst snd] in *. subst r.
  rewrite is_error_ErrorResult. now destruct (ErrorResult data).
Qed.

Lemma refresh_history_fetched (clicked : bool) (token : string) (w : World)
  (data : pyval) :
  clicked || is_none (session_get w "history_cache") = true ->
  fst (fetch_history token w) = Return data ->
  refresh_history clicked token w
  = if ErrorResult data then
      (Return tt, set_session "history_cache" PNone (snd (fetch_history token w)))
    else
      match data with
      | PDict d =>
          (Return tt,
           set_session "history_cache" (dict_get_default d "history" (PList []))
             (snd (fetch_history token w)))
      | _ => (Raise AttributeError, snd (fetch_history token w))
      end.
Proof.
  intros Ht Hf. unfold refresh_history. rewrite Ht.
  destruct (fetch_history token w) as [r w1]. cbn [fst snd] in *. subst r.
  rewrite is_error_ErrorResult. destruct (ErrorResult data); [reflexivity|].
  now destruct data.
Qed.

(** When a fetch of analytics or history returns an error object the cache
    is set to None, whatever it held before, and the next read of the cache
    gives None; when the fetch returns anything else the cache is replaced
    by the fetched analytics object, respectively by the "history" field of
    the fetched object (the empty list when the field is absent). No other
    session entry changes. *)
Theorem failed_fetch_clears_cache (clicked : bool) (token : string) (w : World) :
  (forall data,
     clicked || is_none (session_get w "analytics_cache") = true ->
     fst (fetch_analytics token w) = Return data ->
     let w' := snd (refresh_analytics clicked token w) in
     fst (refresh_analytics clicked token w) = Return tt
     /\ (ErrorResult data = true ->
         session_state w' !! "analytics_cache" = Some PNone
         /\ read_analytics w' = PNone)
     /\ (ErrorResult data = false -> read_analytics w' = data)
     /\ (forall k, k <> "analytics_cache" ->
           session_state w' !! k = session_state w !! k))
  /\ (forall data,
        clicked || is_none (session_get w "history_cache") = true ->
        fst (fetch_history token w) = Return data ->
        let w' := snd (refresh_history clicked token w) in
        (ErrorResult data = true ->
         fst (refresh_history clicked token w) = Return tt
         /\ session_state w' !! "history_cache" = Some PNone
         /\ read_history w' = PNone)
        /\ (forall d, ErrorResult data = false -> data = PDict d ->
              fst (refresh_history clicked token w) = Return tt
              /\ read_history w' = dict_get_default d "history" (PList []))
        /\ (forall k, k <> "history_cache" ->
              session_state w' !! k = session_state w !! k)).
Proof.
  split.
  - intros data Ht Hf. cbv zeta.
    rewrite (refresh_analytics_fetched _ _ _ _ Ht Hf). cbn [fst snd].
    split; [reflexivity|]. split; [|split].
    + intros ->. unfold read_analytics. rewrite session_get_set.
      split; [|reflexivity]. unfold set_session. cbn [session_state].
      apply lookup_insert_eq.
    + intros ->. unfold read_analytics. apply session_get_set.
    + intros k Hk. rewrite session_set_other by congruence.
      unfold fetch_analytics. now rewrite call_function_world.
  - intros data Ht Hf. cbv zeta.
    rewrite (refresh_history_fetched _ _ _ _ Ht Hf).
    split; [|split].
    + intros ->. cbn [fst snd]. split; [reflexivity|].
      unfold read_history. rewrite session_get_default_set.
      split; [|reflexivity]. unfold set_session. cbn [session_state].
      apply lookup_insert_eq.
    + intros d -> ->. cbn [fst snd]. split; [reflexivity|].
      unfold read_history. apply session_get_default_set.
    + intros k Hk.
      assert (Hw : session_state (snd (fetch_history token w)) = session_state w).
      { unfold fetch_history. now rewrite call_function_world. }
      destruct (ErrorResult data); [|destruct data]; cbn [snd];
        rewrite ?session_set_other by congruence; now rewrite Hw.
Qed.

Lemma fetch_raises_on_non_object (path token : string) (w : World)
  (resp : Response) (data : pyval) :
  http w (function_request path token None) = Return resp ->
  resp_json resp = Return data ->
  ok resp = false ->
  (forall d, data <> PDict d) ->
  call_function path token None w
  = (Raise AttributeError, log_request (function_request path token None) w).
Proof.
  intros Hr Hj Hok Hd.
  pose proof (call_function_answer _ _ _ _ _ Hr) as Ha.
  pose proof (call_function_world path token None w) as Hw.
  rewrite Hj, Hok in Ha.
  destruct (call_function path token None w) as [r w1].
  cbn [fst snd] in *. subst r w1. f_equal.
  destruct data; try reflexivity. now destruct (Hd d).
Qed.

(** C8. The failed fetch that does not clear the cache. When the function
    answers a refresh with a non-success status and a JSON body that is not
    an object (a list, a string, a number, null), [call_function] raises
    AttributeError instead of returning an error, the refresh raises with
    it, and the cache is not touched: the history and the analytics read
    afterwards are the ones cached before, and since that cache is not None
    the next view shows them without fetching again. *)
Theorem raising_fetch_keeps_stale_cache
  (clicked : bool) (token : string) (w : World)
  (resp : Response) (data : pyval) :
  (forall path, http w (function_request path token None) = Return resp) ->
  resp_json resp = Return data ->
  ok resp = false ->
  (forall d, data <> PDict d) ->
  (clicked || is_none (session_get w "history_cache") = true ->
   let w' := snd (refresh_history clicked token w) in
   fst (refresh_history clicked token w) = Raise AttributeError
   /\ session_state w' = session_state w
   /\ read_history w' = read_history w
   /\ (is_none (session_get w "history_cache") = false ->
       refresh_history false token w' = (Return tt, w')))
  /\ (clicked || is_none (session_get w "analytics_cache") = true ->
      let w' := snd (refresh_analytics clicked token w) in
      fst (refresh_analytics clicked token w) = Raise AttributeError
      /\ session_state w' = session_state w
      /\ read_analytics w' = read_analytics w
      /\ (is_none (session_get w "analytics_cache") = false ->
          refresh_analytics false token w' = (Return tt, w'))).
Proof.
  intros Hr Hj Hok Hd. split.
  - intros Ht. cbv zeta. unfold refresh_history, fetch_history. rewrite Ht.
    rewrite (fetch_raises_on_non_object _ _ _ _ _ (Hr "/history") Hj Hok Hd).
    cbn [fst snd]. repeat split.
    intros Hc. unfold session_get in *. cbn [session_state log_request].
    now rewrite Hc.
  - intros Ht. cbv zeta. unfold refresh_analytics, fetch_analytics. rewrite Ht.
    rewrite (fetch_raises_on_non_object _ _ _ _ _ (Hr "/analytics") Hj Hok Hd).
    cbn [fst snd]. repeat split.
    intros Hc. unfold session_get in *. cbn [session_state log_request].
    now rewrite Hc.
Qed.

(** ** History filters *)

Lemma comprehension_filter (cond : pyval -> result bool) (f : pyval -> bool)
  (l : list pyval) :
  (forall e, In e l -> cond e = Return (f e)) ->
  comprehension cond l = Return (List.filter f l).
Proof.
  induction l as [|e l IH]; intros H; [reflexivity|].
  cbn [comprehension List.filter].
  rewrite (H e (or_introl eq_refl)). cbn [mbind result_bind].
  rewrite IH by (intros x Hx; apply H; now right).
  cbn [mbind result_bind]. reflexivity.
Qed.

Lemma filter_stage (active : bool) (cond : pyval -> result bool)
  (f : pyval -> bool) (l : list pyval) :
  (forall e, In e l -> cond e = Return (f e)) ->
  (if active then comprehension cond l else Return l)
  = Return (List.filter (fun e => negb active || f e) l).
Proof.
  intros H. destruct active; cbn [negb orb].
  - now apply comprehension_filter.
  - f_equal. induction l as [|e l IH]; [reflexivity|].
    cbn [List.filter]. f_equal. apply IH. intros x Hx. apply H. now right.
Qed.

Lemma filter_twice (f g : pyval -> bool) (l : list pyval) :
  List.filter g (List.filter f l) = List.filter (fun e => f e && g e) l.
Proof.
  induction l as [|e l IH]; [reflexivity|].
  cbn [List.filter]. destruct (f e); cbn [andb List.filter].
  - destruct (g e); now rewrite IH.
  - exact IH.
Qed.

Lemma search_cond_entry (search : string) (entry : pyval) :
  history_entry entry = true ->
  search_cond search entry
  = Return (str_in (lower search) (lower (entry_text entry "originalText"))
            || str_in (lower search) (lower (entry_text entry "adaptedText"))).
Proof.
  destruct entry as [| | | | | |d]; try discriminate.
  unfold history_entry, search_cond, entry_text, py_get, dict_get_default,
    text_field.
  destruct (dict_get d "originalText") as [[| | | |o| |]|];
    try discriminate;
  (destruct (dict_get d "adaptedText") as [[| | | |a| |]|];
    try discriminate);
  intros _; cbn [mbind result_bind py_lower];
  match goal with
  | |- context [if ?b then _ else _] => now destruct b
  end.
Qed.

Lemma config_cond_entry (key wanted : string) (entry : pyval) :
  history_entry entry = true ->
  config_cond key wanted entry = Return (eq_str (entry_config entry key) wanted).
Proof.
  destruct entry as [| | | | | |d]; try discriminate.
  unfold history_entry, config_cond, entry_config, py_getitem.
  destruct (text_field d "originalText"); try discriminate.
  destruct (text_field d "adaptedText"); try discriminate.
  destruct (dict_get d "config") as [[| | | | | |c]|]; try discriminate.
  reflexivity.
Qed.

Lemma filter_history_entries (search grade_filter model_filter : string)
  (history_data : list pyval) :
  Forall (fun e => history_entry e = true) history_data ->
  filter_history search grade_filter model_filter history_data
  = Return (List.filter (entry_matches search grade_filter model_filter)
              history_data).
Proof.
  intros Hwf. rewrite List.Forall_forall in Hwf. unfold filter_history.
  rewrite (filter_stage _ _ _ _
             (fun e He => search_cond_entry search e (Hwf e He))).
  cbn [mbind result_bind].
  rewrite (filter_stage _ (config_cond "gradeLevel" grade_filter)
             (fun e => eq_str (entry_config e "gradeLevel") grade_filter)).
  2:{ intros e He. apply config_cond_entry, Hwf.
      now apply filter_In in He as [He _]. }
  cbn [mbind result_bind].
  rewrite (filter_stage _ (config_cond "aiModel" model_filter)
             (fun e => eq_str (entry_config e "aiModel") model_filter)).
  2:{ intros e He. apply config_cond_entry, Hwf.
      apply filter_In in He as [He _]. now apply filter_In in He as [He _]. }
  cbn [mbind result_bind]. rewrite !filter_twice. f_equal.
  apply filter_ext. intros e.
  unfold entry_matches, search_ok, choice_ok. cbn [truthy].
  rewrite !negb_involutive, orb_assoc, ?andb_assoc. reflexivity.
Qed.

Lemma choice_ok_spec (key wanted : string) (entry : pyval) :
  choice_ok key wanted entry = true
  <-> wanted = "all" \/ entry_config entry key = PStr wanted.
Proof.
  unfold choice_ok. rewrite orb_true_iff, String.eqb_eq.
  split; (intros [H|H]; [now left|right]).
  - destruct (entry_config entry key); try discriminate H.
    cbn [eq_str] in H. apply String.eqb_eq in H. now subst.
  - rewrite H. cbn [eq_str]. apply String.eqb_refl.
Qed.

Lemma search_ok_spec (search : string) (entry : pyval) :
  search_ok search entry = true
  <-> search = ""
      \/ occurs_in (lower search) (lower (entry_text entry "originalText"))
      \/ occurs_in (lower search) (lower (entry_text entry "adaptedText")).
Proof.
  unfold search_ok.
  rewrite !orb_true_iff, String.eqb_eq, !str_in_spec.
  clear exc_str py_repr cfg. tauto.
Qed.

(** C9. Over a cached list of history entries the three filters return, in
    the original order, exactly the entries that satisfy all active filters:
    the search term, lower-cased, occurs in the lower-cased originalText or
    adaptedText (no restriction when the term is empty), the entry's
    gradeLevel equals the grade filter unless that is "all", and its aiModel
    equals the model filter unless that is "all". When a single entry
    satisfies them, the result is that entry alone. *)
Theorem history_filters_conjunction
  (search grade_filter model_filter : string) (history_data : list pyval) :
  Forall (fun e => history_entry e = true) history_data ->
  let kept := List.filter (entry_matches search grade_filter model_filter)
                history_data in
  filter_history search grade_filter model_filter history_data = Return kept
  /\ (forall e,
        In e kept
        <-> In e history_data
            /\ (search = ""
                \/ occurs_in (lower search) (lower (entry_text e "originalText"))
                \/ occurs_in (lower search) (lower (entry_text e "adaptedText")))
            /\ (grade_filter = "all"
                \/ entry_config e "gradeLevel" = PStr grade_filter)
            /\ (model_filter = "all"
                \/ entry_config e "aiModel" = PStr model_filter))
  /\ (forall before e after,
        history_data = (before ++ e :: after)%list ->
        entry_matches search grade_filter model_filter e = true ->
        (forall x, In x (before ++ after)%list ->
           entry_matches search grade_filter model_filter x = false) ->
        kept = [e]).
Proof.
  intros Hwf kept. split; [now apply filter_history_entries|]. split.
  - intros e. unfold kept. rewrite filter_In. unfold entry_matches.
    rewrite !andb_true_iff, search_ok_spec, !choice_ok_spec.
    clear exc_str py_repr cfg. tauto.
  - intros before e after -> He Hother. unfold kept.
    rewrite List.filter_app. cbn [List.filter]. rewrite He.
    assert (Hnone : forall l, (forall x, In x l ->
              entry_matches search grade_filter model_filter x = false) ->
              List.filter (entry_matches search grade_filter model_filter) l = []).
    { induction l as [|x l IH]; intros H; [reflexivity|].
      cbn [List.filter]. rewrite (H x (or_introl eq_refl)).
      apply IH. intros y Hy. apply H. now right. }
    rewrite (Hnone before), (Hnone after); [reflexivity| |];
      intros x Hx; apply Hother, in_or_app; auto.
Qed.


(** ** Further properties of [call_function] and [adapt_text] *)

Lemma call_function_raise_cases
  (path token : string) (body : option pyval) (w : World) (e : pyexc) :
  fst (call_function path token body w) = Raise e
  <-> exists resp data,
        http w (function_request path token body) = Return resp
        /\ resp_json resp = Return data
        /\ ok resp = false
        /\ (forall d, data <> PDict d)
        /\ e = AttributeError.
Proof.
  destruct (http w (function_request path token body)) as [resp|exc] eqn:Hr.
  - rewrite (call_function_answer _ _ _ _ _ Hr). split.
    + destruct (resp_json resp) as [data|e'] eqn:Hj; [|discriminate].
      destruct (ok resp) eqn:Hok; [discriminate|].
      destruct data; cbn [py_get mbind result_bind]; try discriminate;
        intros [= <-]; eexists _, _; repeat split; eauto; discriminate.
    + intros (resp' & data & [= <-] & Hj & Hok & Hd & ->).
      rewrite Hj, Hok. destruct data; try reflexivity. now destruct (Hd d).
  - rewrite (call_function_transport_failure _ _ _ _ _ Hr). split.
    + discriminate.
    + intros (resp & data & H & _). discriminate H.
Qed.

(** X1. [call_function] never raises on a transport failure, on a body that
    is not JSON, on a successful status, or on an error status with an
    object body; it raises in one situation only: the answer parsed as
    JSON, its status is not a success, and the parsed value is not an
    object. The exception is then AttributeError. *)
Theorem call_function_raises_iff
  (path token : string) (body : option pyval) (w : World) :
  (forall e,
     fst (call_function path token body w) = Raise e
     <-> exists resp data,
           http w (function_request path token body) = Return resp
           /\ resp_json resp = Return data
           /\ ok resp = false
           /\ (forall d, data <> PDict d)
           /\ e = AttributeError)
  /\ (forall exc,
        http w (function_request path token body) = Raise exc ->
        exists v, fst (call_function path token body w) = Return v
                  /\ ErrorResult v = true)
  /\ (forall resp,
        http w (function_request path token body) = Return resp ->
        ok resp = true \/ (exists e, resp_json resp = Raise e)
        \/ (exists d, resp_json resp = Return (PDict d)) ->
        exists v, fst (call_function path token body w) = Return v).
Proof.
  split; [intros e; apply call_function_raise_cases|]. split.
  - intros exc Hr. rewrite (call_function_transport_failure _ _ _ _ _ Hr).
    eexists. split; reflexivity.
  - intros resp Hr H. rewrite (call_function_answer _ _ _ _ _ Hr).
    destruct (resp_json resp) as [data|e] eqn:Hj; [|now eexists].
    destruct (ok resp); [now eexists|].
    destruct H as [H|[[e H]|[d [= ->]]]]; try discriminate.
    now eexists.
Qed.

(** X2. Whatever the backend answers, one call of [call_function] sends
    exactly one request (no retry): to the function URL for the path, with
    the caller's token as bearer, as a POST carrying the body when one is
    given and as a GET otherwise, without a timeout; nothing else of the
    process state changes. *)
Theorem call_function_one_request
  (path token : string) (body : option pyval) (w : World) :
  let w' := snd (call_function path token body w) in
  exists q,
    sent w' = (sent w ++ [q])%list
    /\ req_url q = function_url path
    /\ req_method q = match body with Some _ => POST | None => GET end
    /\ req_json q = body
    /\ authorization q = Some ("Bearer " ++ token)
    /\ req_timeout q = None
    /\ st_secrets w' = st_secrets w /\ os_environ w' = os_environ w
    /\ session_state w' = session_state w /\ http w' = http w.
Proof.
  cbv zeta. rewrite call_function_world.
  exists (function_request path token body).
  destruct body; repeat split; reflexivity.
Qed.

(** X3. When the direct backend cannot be reached the call reports
    "Failed to call OpenAI API: ..." and stops: the only request it has sent
    is the one to the direct backend, the proxy is not tried. *)
Theorem direct_failure_no_fallback
  (token text : string) (config : pydict) (w : World)
  (key : pyval) (m : string) (exc : pyexc) :
  credential w = Some key ->
  model_map_get (dict_get_none config "aiModel") "gpt-3.5-turbo" = Return m ->
  http w (openai_request key (openai_payload m (build_user_prompt config text)))
  = Raise exc ->
  fst (adapt_text token text config w)
  = Return (error_dict (PStr ("Failed to call OpenAI API: " ++ exc_str exc)))
  /\ map handler (issued token text config w) = [Some Direct].
Proof.
  intros Hk Hm Hr. split.
  - destruct (credential_key _ _ Hk) as [Ht <-].
    unfold adapt_text, requests_send. now rewrite Ht, Hm, Hr.
  - rewrite issued_spec, Hk, Hm. cbn [map]. now rewrite handler_openai.
Qed.

(** X4. A successful answer of the direct backend whose body is an object
    with no "choices" field, or with one that is empty or otherwise false,
    yields exactly the error "OpenAI API returned no choices.". *)
Theorem no_choices_error
  (token text : string) (config : pydict) (w : World)
  (key : pyval) (m : string) (resp : Response) (d : pydict) :
  credential w = Some key ->
  model_map_get (dict_get_none config "aiModel") "gpt-3.5-turbo" = Return m ->
  http w (openai_request key (openai_payload m (build_user_prompt config text)))
  = Return resp ->
  ok resp = true ->
  resp_json resp = Return (PDict d) ->
  truthy (dict_get_default d "choices" (PList [])) = false ->
  fst (adapt_text token text config w)
  = Return (error_dict (PStr "OpenAI API returned no choices.")).
Proof.
  intros Hk Hm Hr Hok Hj Hc.
  rewrite (adapt_text_direct _ _ _ _ _ _ _ Hk Hm Hr), Hok.
  unfold read_openai_response. rewrite Hj.
  cbn [mbind result_bind py_get]. now rewrite Hc.
Qed.

Lemma build_metadata_object (m : string) (d : pydict) :
  build_metadata m (PDict d)
  = match dict_get d "usage" with
    | None => Return [("model", PStr m)]
    | Some (PDict usage) =>
        Return [("model", PStr m);
                ("promptTokens", dict_get_none usage "prompt_tokens");
                ("completionTokens", dict_get_none usage "completion_tokens");
                ("totalTokens", dict_get_none usage "total_tokens")]
    | Some _ => Raise AttributeError
    end.
Proof.
  unfold build_metadata. cbn [py_contains mbind result_bind py_getitem].
  unfold dict_has.
  destruct (dict_get d "usage") as [[| | | | | |usage]|];
    cbn [mbind result_bind py_get]; reflexivity.
Qed.

Lemma read_openai_response_first_choice (m : string) (resp : Response)
  (d choice message : pydict) (others : list pyval) (content : string) :
  resp_json resp = Return (PDict d) ->
  dict_get d "choices" = Some (PList (PDict choice :: others)) ->
  dict_get choice "message" = Some (PDict message) ->
  dict_get message "content" = Some (PStr content) ->
  read_openai_response m resp
  = match build_metadata m (PDict d) with
    | Return meta =>
        Return (PDict [("adaptedText", PStr (strip content));
                       ("metadata", PDict meta)])
    | Raise e => Raise e
    end.
Proof.
  intros Hj Hc Hmsg Hcontent. unfold read_openai_response. rewrite Hj.
  cbn [mbind result_bind py_get]. unfold dict_get_default. rewrite Hc.
  cbn [truthy negb py_index0 mbind result_bind]. cbn [py_getitem].
  rewrite Hmsg. cbn [mbind result_bind py_getitem]. rewrite Hcontent.
  cbn [mbind result_bind py_strip].
  now destruct (build_metadata m (PDict d)).
Qed.

(** X5. A successful answer whose first choice carries a string content
    yields that content, stripped, as adaptedText; only the first choice is
    read. The metadata is the resolved model alone when the body has no
    "usage", and the model followed by promptTokens, completionTokens and
    totalTokens (None for a count the backend left out) when "usage" is an
    object. *)
Theorem first_choice_adapted
  (token text : string) (config : pydict) (w : World)
  (key : pyval) (m : string) (resp : Response)
  (d choice message : pydict) (others : list pyval) (content : string) :
  credential w = Some key ->
  model_map_get (dict_get_none config "aiModel") "gpt-3.5-turbo" = Return m ->
  http w (openai_request key (openai_payload m (build_user_prompt config text)))
  = Return resp ->
  ok resp = true ->
  resp_json resp = Return (PDict d) ->
  dict_get d "choices" = Some (PList (PDict choice :: others)) ->
  dict_get choice "message" = Some (PDict message) ->
  dict_get message "content" = Some (PStr content) ->
  dict_get d "usage" = None \/ (exists u, dict_get d "usage" = Some (PDict u)) ->
  fst (adapt_text token text config w)
  = Return (PDict
      [("adaptedText", PStr (strip content));
       ("metadata",
        PDict (("model", PStr m)
               :: match dict_get d "usage" with
                  | Some (PDict usage) =>
                      [("promptTokens", dict_get_none usage "prompt_tokens");
                       ("completionTokens",
                        dict_get_none usage "completion_tokens");
                       ("totalTokens", dict_get_none usage "total_tokens")]
                  | _ => []
                  end))]).
Proof.
  intros Hk Hm Hr Hok Hj Hc Hmsg Hcontent Hu.
  rewrite (adapt_text_direct _ _ _ _ _ _ _ Hk Hm Hr), Hok.
  rewrite (read_openai_response_first_choice _ _ _ _ _ _ _ Hj Hc Hmsg Hcontent).
  rewrite build_metadata_object.
  destruct Hu as [->|[u ->]]; reflexivity.
Qed.

(** X6. A "usage" field that is present but is not an object (null, a
    number, a list) turns an otherwise good answer into the error "Failed to
    parse OpenAI response: ...": the adapted text is not returned. *)
Theorem usage_not_object_is_error
  (token text : string) (config : pydict) (w : World)
  (key : pyval) (m : string) (resp : Response)
  (d choice message : pydict) (others : list pyval) (content : string)
  (usage : pyval) :
  credential w = Some key ->
  model_map_get (dict_get_none config "aiModel") "gpt-3.5-turbo" = Return m ->
  http w (openai_request key (openai_payload m (build_user_prompt config text)))
  = Return resp ->
  ok resp = true ->
  resp_json resp = Return (PDict d) ->
  dict_get d "choices" = Some (PList (PDict choice :: others)) ->
  dict_get choice "message" = Some (PDict message) ->
  dict_get message "content" = Some (PStr content) ->
  dict_get d "usage" = Some usage ->
  (forall u, usage <> PDict u) ->
  fst (adapt_text token text config w)
  = Return (error_dict (PStr
      ("Failed to parse OpenAI response: " ++ exc_str AttributeError))).
Proof.
  intros Hk Hm Hr Hok Hj Hc Hmsg Hcontent Hu Hnot.
  rewrite (adapt_text_direct _ _ _ _ _ _ _ Hk Hm Hr), Hok.
  rewrite (read_openai_response_first_choice _ _ _ _ _ _ _ Hj Hc Hmsg Hcontent).
  rewrite build_metadata_object, Hu.
  destruct usage; try reflexivity. now destruct (Hnot d0).
Qed.

(** X7. With a direct-model credential in place the caller's session token
    plays no part: the call returns the same value and sends the same
    request whatever the token is. *)
Theorem direct_path_ignores_token
  (token token' text : string) (config : pydict) (w : World) :
  credential w <> None ->
  adapt_text token text config w = adapt_text token' text config w.
Proof.
  intros Hc. destruct (credential w) as [key|] eqn:Hk; [|easy].
  destruct (credential_key _ _ Hk) as [Ht _].
  unfold adapt_text. now rewrite Ht.
Qed.

(** X8. [adapt_text] raises in two situations only: a credential is found
    and the aiModel value cannot be hashed (TypeError), or no credential is
    found and the proxy answers a non-success status with a JSON value that
    is not an object (AttributeError). *)
Theorem adapt_text_raises_iff
  (token text : string) (config : pydict) (w : World) (e : pyexc) :
  fst (adapt_text token text config w) = Raise e
  <-> (credential w <> None
       /\ hashable (dict_get_none config "aiModel") = false
       /\ e = TypeError)
      \/ (credential w = None
          /\ exists resp data,
               http w (function_request "/adapt-text" token
                         (Some (PDict [("text", PStr text);
                                       ("config", PDict config)])))
               = Return resp
               /\ resp_json resp = Return data
               /\ ok resp = false
               /\ (forall d, data <> PDict d)
               /\ e = AttributeError).
Proof.
  destruct (credential w) as [key|] eqn:Hk.
  - destruct (credential_key _ _ Hk) as [Ht _].
    unfold adapt_text, requests_send. rewrite Ht, model_map_get_hashable.
    destruct (hashable (dict_get_none config "aiModel")).
    + split.
      * destruct (http w _) as [resp|exc]; [|discriminate].
        destruct (negb (ok resp)); [discriminate|].
        destruct (read_openai_response _ resp); discriminate.
      * intros [(_ & H & _)|(H & _)]; discriminate H.
    + cbn [fst]. split.
      * intros [= <-]. left. repeat split. discriminate.
      * intros [(_ & _ & ->)|(H & _)]; [reflexivity|discriminate H].
  - apply credential_none in Hk as Ht.
    unfold adapt_text. rewrite Ht. split.
    + intros H. right. split; [reflexivity|].
      now apply call_function_raise_cases.
    + intros [(H & _)|(_ & H)]; [now destruct H|].
      now apply call_function_raise_cases.
Qed.

(** X9. The grade named in the prompt is whatever the configuration holds
    under "gradeLevel", with no check against the list of grades; only a
    missing key falls back to grade 3, while an explicit None is spelled out
    as "None". *)
Theorem grade_default_and_passthrough (config : pydict) (text : string) :
  (forall g : string,
     dict_get config "gradeLevel" = Some (PStr g) ->
     exists rest,
       build_user_prompt config text
       = ("Rewrite the following text for grade " ++ g ++ " reading level.")
         ++ rest)
  /\ (dict_get config "gradeLevel" = None ->
      exists rest,
        build_user_prompt config text
        = "Rewrite the following text for grade 3 reading level." ++ rest)
  /\ (dict_get config "gradeLevel" = Some PNone ->
      exists rest,
        build_user_prompt config text
        = "Rewrite the following text for grade None reading level." ++ rest).
Proof.
  rewrite build_user_prompt_clauses. cbn [concat_str].
  unfold grade_clause, dict_get_default.
  split; [|split].
  - intros g ->. eexists. cbn [py_str]. now rewrite !append_assoc.
  - intros ->. eexists. cbn [py_str]. now rewrite !append_assoc.
  - intros ->. eexists. cbn [py_str]. now rewrite !append_assoc.
Qed.

(** X10. Every request of the direct path is a POST with a timeout of 60
    seconds, temperature 0.7, max_tokens 1024 and exactly two messages, the
    fixed system instruction first; the request of the proxy path has no
    timeout and carries the text and the configuration unchanged. *)
Theorem request_parameters
  (token text : string) (config : pydict) (w : World) :
  match credential w with
  | Some _ =>
      Forall (fun q =>
                req_method q = POST
                /\ req_timeout q = Some 60%Z
                /\ payload_field q "temperature" = Some (PFloat float_0_7)
                /\ payload_field q "max_tokens" = Some (PInt 1024)
                /\ exists user,
                     payload_field q "messages"
                     = Some (PList
                         [PDict [("role", PStr "system");
                                 ("content", PStr system_prompt)];
                          PDict [("role", PStr "user");
                                 ("content", PStr user)]]))
             (issued token text config w)
  | None =>
      Forall (fun q =>
                req_method q = POST
                /\ req_timeout q = None
                /\ req_json q = Some (PDict [("text", PStr text);
                                             ("config", PDict config)]))
             (issued token text config w)
  end.
Proof.
  rewrite issued_spec. destruct (credential w) as [key|].
  - destruct (model_map_get _ _) as [m|e]; constructor; [|constructor].
    repeat split; try (eexists; reflexivity).
  - constructor; [|constructor]. repeat split.
Qed.

(** ** Word count and reading time *)

Lemma all_space_app (a b : string) :
  all_space (a ++ b) = all_space a && all_space b.
Proof.
  induction a as [|c a IH]; [reflexivity|].
  rewrite append_cons. cbn [all_space]. now rewrite IH, andb_assoc.
Qed.

Lemma lstrip_all_space (s : string) : all_space s = true -> lstrip s = "".
Proof.
  induction s as [|c s IH]; [reflexivity|]. cbn [all_space lstrip].
  intros [Hc Hs]%andb_true_iff. rewrite Hc. now apply IH.
Qed.

Lemma strip_blank_iff (s : string) : strip s = "" <-> all_space s = true.
Proof.
  split.
  - intros H. destruct (strip_split s) as (a & b & Hs & Ha & Hb).
    rewrite H, append_nil_l in Hs. rewrite Hs, all_space_app, Ha, Hb.
    reflexivity.
  - intros H. unfold strip. now rewrite (lstrip_all_space _ H).
Qed.

Lemma split_from_nil (cur s : string) :
  split_from cur s = [] <-> cur = "" /\ all_space s = true.
Proof.
  revert cur. induction s as [|c s IH]; intros cur; cbn [split_from all_space].
  - destruct (String.eqb_spec cur ""); split; easy.
  - destruct (is_space c); cbn [andb].
    + destruct (String.eqb_spec cur "") as [->|Hne].
      * cbn [app]. rewrite IH. clear exc_str py_repr cfg. tauto.
      * split; [discriminate|]. intros [H _]. contradiction.
    + rewrite IH. split; [|intros [_ H]; discriminate H].
      intros [H _]. destruct cur; discriminate H.
Qed.

(** X11. The word count is the number of whitespace-separated words of the
    input, and it is zero exactly when the input is blank; so the "Adapt
    text" button is disabled exactly when the word count is zero. *)
Theorem word_count_zero_iff_blank (input_text : string) :
  word_count input_text = length (split input_text)
  /\ (word_count input_text = 0 <-> strip input_text = "")
  /\ (word_count input_text = 0 <-> all_space input_text = true)
  /\ (adapt_disabled input_text = true <-> word_count input_text = 0).
Proof.
  assert (Hs : length (split input_text) = 0 <-> all_space input_text = true).
  { unfold split. rewrite length_zero_iff_nil, split_from_nil.
    clear exc_str py_repr cfg. tauto. }
  assert (Hw : word_count input_text = length (split input_text)).
  { unfold word_count. cbn [truthy].
    destruct (String.eqb_spec (strip input_text) "") as [E|E]; cbn [negb];
      [|reflexivity].
    symmetry. now apply Hs, strip_blank_iff. }
  split; [exact Hw|]. rewrite Hw, Hs.
  split; [symmetry; apply strip_blank_iff|]. split; [reflexivity|].
  unfold adapt_disabled. cbn [truthy]. rewrite negb_involutive, String.eqb_eq.
  apply strip_blank_iff.
Qed.

(** X12. The estimated reading time is the word count divided by 200 and
    rounded up: it is the least number of minutes [t] with [words <= 200 t],
    zero minutes for zero words and at least one minute otherwise. *)
Theorem reading_time_rounds_up (words : nat) :
  words <= 200 * reading_time words
  /\ 200 * reading_time words < words + 200
  /\ (reading_time words = 0 <-> words = 0).
Proof.
  unfold reading_time. destruct (Nat.eqb_spec words 0) as [->|Hne]; cbn [negb].
  - lia.
  - pose proof (Nat.div_mod_eq (words + 199) 200) as Hd.
    pose proof (Nat.mod_upper_bound (words + 199) 200) as Hm.
    lia.
Qed.

(** ** Authentication *)

Lemma session_has_set (k : string) (v : pyval) (w : World) :
  session_has (set_session k v w) k = true.
Proof.
  unfold session_has, set_session. cbn [session_state].
  now rewrite lookup_insert_eq.
Qed.

Lemma session_get_set_other (k k' : string) (v : pyval) (w : World) :
  k <> k' -> session_get (set_session k v w) k' = session_get w k'.
Proof.
  intros H. unfold session_get. now rewrite session_set_other.
Qed.

Lemma init_supabase_other (sb : Supabase) (w : World) (k : string) :
  k <> "supabase_client" ->
  session_state (snd (init_supabase sb w)) !! k = session_state w !! k.
Proof.
  intros Hk. unfold init_supabase.
  destruct (negb (session_has w "supabase_client")); [|reflexivity].
  destruct (create_client sb); [|reflexivity].
  cbn [snd]. apply session_set_other. congruence.
Qed.

Lemma init_supabase_present (sb : Supabase) (w : World) :
  session_has w "supabase_client" = true ->
  init_supabase sb w = (Return (session_get w "supabase_client"), w).
Proof. intros H. unfold init_supabase. now rewrite H. Qed.

Lemma init_supabase_absent (sb : Supabase) (w : World) :
  session_has w "supabase_client" = false ->
  init_supabase sb w
  = match create_client sb with
    | Raise e => (Raise e, w)
    | Return client => (Return client, set_session "supabase_client" client w)
    end.
Proof.
  intros H. unfold init_supabase. rewrite H. cbn [negb].
  destruct (create_client sb); [|reflexivity]. now rewrite session_get_set.
Qed.

(** X13. The Supabase client is created at most once per session: once a
    call of [init_supabase] has returned a client, every later call returns
    that same client without consulting [create_client] and without
    changing the session state; no call touches another session entry. *)
Theorem init_supabase_caches_client (sb : Supabase) (w : World) (client : pyval) :
  fst (init_supabase sb w) = Return client ->
  let w1 := snd (init_supabase sb w) in
  (forall sb', init_supabase sb' w1 = (Return client, w1))
  /\ (session_has w "supabase_client" = true -> w1 = w)
  /\ (forall k, k <> "supabase_client" ->
        session_state w1 !! k = session_state w !! k).
Proof.
  intros Hc. cbv zeta.
  assert (Hsame : forall sb', init_supabase sb' (snd (init_supabase sb w))
                              = (Return client, snd (init_supabase sb w))).
  { intros sb'. destruct (session_has w "supabase_client") eqn:Hh.
    - rewrite (init_supabase_present sb _ Hh) in Hc |- *. cbn [fst snd] in *.
      injection Hc as <-. now apply init_supabase_present.
    - rewrite (init_supabase_absent sb _ Hh) in Hc |- *.
      destruct (create_client sb) as [c|e]; cbn [fst snd] in *; [|discriminate].
      injection Hc as <-.
      rewrite init_supabase_present by apply session_has_set.
      now rewrite session_get_set. }
  split; [exact Hsame|]. split.
  - intros Hh. now rewrite init_supabase_present.
  - intros k Hk. now apply init_supabase_other.
Qed.

Lemma lookup_pop_session (k k' : string) (w : World) :
  session_state (pop_session k w) !! k'
  = if String.eqb k k' then None else session_state w !! k'.
Proof.
  unfold pop_session. cbn [session_state].
  destruct (String.eqb_spec k k') as [->|Hne].
  - apply lookup_delete_eq.
  - now apply lookup_delete_ne.
Qed.

Lemma refresh_history_sent (clicked : bool) (token : string) (w : World) :
  sent (snd (refresh_history clicked token w))
  = if clicked || is_none (session_get w "history_cache")
    then (sent w ++ [function_request "/history" token None])%list
    else sent w.
Proof.
  unfold refresh_history.
  destruct (clicked || is_none (session_get w "history_cache")); [|reflexivity].
  pose proof (call_function_world "/history" token None w) as Hw.
  unfold fetch_history. destruct (call_function "/history" token None w) as [r w1].
  cbn [snd] in Hw. subst w1.
  destruct r as [data|e]; [|reflexivity].
  destruct (is_error data); [reflexivity|].
  now destruct (py_get data "history" (PList [])).
Qed.

(** X14. Signing out removes the session, the user and both caches from the
    session state whether or not the backend's sign-out succeeds, and leaves
    the other entries alone; afterwards the page is gated again, the history
    reads as empty, and the next view of the History tab fetches anew
    without a click. *)
Theorem sign_out_clears_session (sb : Supabase) (w : World) :
  session_has w "supabase_client" = true ->
  let w' := snd (sign_out sb w) in
  fst (sign_out sb w) = Return tt
  /\ (forall k, In k ["session"; "user"; "history_cache"; "analytics_cache"] ->
        session_state w' !! k = None)
  /\ (forall k, ~ In k ["session"; "user"; "history_cache"; "analytics_cache"] ->
        session_state w' !! k = session_state w !! k)
  /\ signed_in w' = false
  /\ read_history w' = PList []
  /\ read_analytics w' = PNone
  /\ sent w' = sent w
  /\ (forall token,
        sent (snd (refresh_history false token w'))
        = (sent w ++ [function_request "/history" token None])%list).
Proof.
  intros Hh. cbv zeta. unfold sign_out. rewrite (init_supabase_present _ _ Hh).
  replace (match auth_sign_out sb with Return _ => w | Raise _ => w end)
    with w by now destruct (auth_sign_out sb).
  cbn [fst snd].
  set (w' := pop_session "analytics_cache" (pop_session "history_cache"
               (pop_session "user" (pop_session "session" w)))).
  assert (Hgone : forall k,
            In k ["session"; "user"; "history_cache"; "analytics_cache"] ->
            session_state w' !! k = None).
  { intros k [<-|[<-|[<-|[<-|[]]]]]; unfold w';
      rewrite !lookup_pop_session; reflexivity. }
  split; [reflexivity|]. split; [exact Hgone|]. split.
  { intros k Hk. unfold w'. rewrite !lookup_pop_session.
    destruct (String.eqb_spec "analytics_cache" k) as [<-|_];
      [destruct Hk; cbn; tauto|].
    destruct (String.eqb_spec "history_cache" k) as [<-|_];
      [destruct Hk; cbn; tauto|].
    destruct (String.eqb_spec "user" k) as [<-|_]; [destruct Hk; cbn; tauto|].
    destruct (String.eqb_spec "session" k) as [<-|_]; [destruct Hk; cbn; tauto|].
    reflexivity. }
  assert (Hs : session_get w' "session" = PNone).
  { unfold session_get. rewrite Hgone; [reflexivity|cbn; tauto]. }
  assert (Hc : session_get w' "history_cache" = PNone).
  { unfold session_get. rewrite Hgone; [reflexivity|cbn; tauto]. }
  split; [unfold signed_in; now rewrite Hs|]. split.
  { unfold read_history, session_get_default.
    rewrite Hgone; [reflexivity|cbn; tauto]. }
  split.
  { unfold read_analytics, session_get.
    rewrite Hgone; [reflexivity|cbn; tauto]. }
  split; [reflexivity|].
  intros token. rewrite refresh_history_sent, Hc. reflexivity.
Qed.

(** X15. A sign-in with an empty email or password, and a sign-up with an
    empty name, email or password, only warns: the process state is left as
    it was and the answer does not depend on the backend. *)
Theorem blank_fields_only_warn
  (sb : Supabase) (name email password : string) (w : World) :
  (email = "" \/ password = "" ->
   sign_in_pressed sb email password w
   = (st_warning "Please provide email and password", w))
  /\ (name = "" \/ email = "" \/ password = "" ->
      sign_up_pressed sb name email password w
      = (st_warning "Please fill in all fields", w)).
Proof.
  split.
  - intros [->| ->]; unfold sign_in_pressed; cbn [truthy String.eqb negb orb];
      [reflexivity|]. now rewrite orb_true_r.
  - intros [->|[->| ->]]; unfold sign_up_pressed;
      cbn [truthy String.eqb negb orb]; rewrite ?orb_true_r; reflexivity.
Qed.

Lemma store_session_pair (session user : pyval) (w : World) :
  store_session (PDict [("session", session); ("user", user)]) w
  = (Return tt, set_session "user" user (set_session "session" session w)).
Proof. reflexivity. Qed.

Lemma signed_in_init (sb : Supabase) (w : World) :
  signed_in (snd (init_supabase sb w)) = signed_in w.
Proof.
  unfold signed_in, session_get.
  now rewrite init_supabase_other by discriminate.
Qed.

Lemma signed_in_stored (session user : pyval) (w : World) :
  let w' := set_session "user" user (set_session "session" session w) in
  session_get w' "session" = session /\ session_get w' "user" = user.
Proof.
  cbv zeta. split.
  - rewrite session_get_set_other by discriminate. apply session_get_set.
  - apply session_get_set.
Qed.

(** X16. Pressing "Sign in" opens the gate only with the backend's consent:
    if nobody was signed in before and somebody is afterwards, then email
    and password were not empty, the backend answered these credentials
    with a session that is not None, and that session and its user are what
    the session state now holds. *)
Theorem sign_in_needs_backend_session
  (sb : Supabase) (email password : string) (w : World) :
  signed_in w = false ->
  let w' := snd (sign_in_pressed sb email password w) in
  signed_in w' = true ->
  email <> "" /\ password <> ""
  /\ exists session user,
       sign_in_with_password sb email password = Return (session, user)
       /\ is_none session = false
       /\ session_get w' "session" = session
       /\ session_get w' "user" = user
       /\ fst (sign_in_pressed sb email password w)
          = st_success "Signed in successfully".
Proof.
  intros Hw. cbv zeta. unfold sign_in_pressed. cbn [truthy].
  rewrite !negb_involutive.
  destruct (String.eqb_spec email "") as [->|He]; cbn [orb snd];
    [now rewrite Hw|].
  destruct (String.eqb_spec password "") as [->|Hp]; cbn [orb snd];
    [now rewrite Hw|].
  unfold sign_in.
  pose proof (signed_in_init sb w) as Hi.
  destruct (init_supabase sb w) as [c w1]. cbn [snd] in Hi.
  rewrite Hw in Hi.
  destruct c as [client|e]; cbn [snd]; [|now rewrite Hi].
  destruct (sign_in_with_password sb email password) as [[session user]|e];
    cbn [snd]; [|now rewrite Hi].
  destruct (is_none session) eqn:Hs; cbn [is_none snd]; [now rewrite Hi|].
  rewrite store_session_pair. cbn [fst snd]. intros _.
  destruct (signed_in_stored session user w1) as [H1 H2].
  repeat split; try assumption. exists session, user. repeat split; assumption.
Qed.

(** X17. Pressing "Sign up" signs the new user in only when the backend
    answers with a session; when it answers without one (the email is still
    to be confirmed) the page stays gated and the user is told to check the
    email. *)
Theorem sign_up_needs_backend_session
  (sb : Supabase) (name email password : string) (w : World) :
  signed_in w = false ->
  let w' := snd (sign_up_pressed sb name email password w) in
  (signed_in w' = true ->
   exists session user,
     auth_sign_up sb name email password = Return (session, user)
     /\ is_none session = false
     /\ session_get w' "session" = session
     /\ session_get w' "user" = user)
  /\ (forall user,
        name <> "" -> email <> "" -> password <> "" ->
        auth_sign_up sb name email password = Return (PNone, user) ->
        (exists client, fst (init_supabase sb w) = Return client) ->
        signed_in w' = false
        /\ fst (sign_up_pressed sb name email password w)
           = st_info "Sign up successful. Please check your email to confirm your account.").
Proof.
  intros Hw. cbv zeta. unfold sign_up_pressed. cbn [truthy].
  rewrite !negb_involutive. unfold sign_up.
  pose proof (signed_in_init sb w) as Hi.
  destruct (init_supabase sb w) as [c w1]. cbn [snd fst] in *.
  rewrite Hw in Hi. split.
  - destruct (String.eqb_spec name "") as [->|Hn]; cbn [orb snd];
      [now rewrite Hw|].
    destruct (String.eqb_spec email "") as [->|He]; cbn [orb snd];
      [now rewrite Hw|].
    destruct (String.eqb_spec password "") as [->|Hp]; cbn [orb snd];
      [now rewrite Hw|].
    destruct c as [client|e]; cbn [snd]; [|now rewrite Hi].
    destruct (auth_sign_up sb name email password) as [[session user]|e];
      cbn [snd]; [|now rewrite Hi].
    destruct (is_none session) eqn:Hs; cbn [is_none snd]; [now rewrite Hi|].
    rewrite store_session_pair. cbn [fst snd]. intros _.
    destruct (signed_in_stored session user w1) as [H1 H2].
    exists session, user. repeat split; assumption.
  - intros user Hn He Hp Hb [client ->].
    destruct (String.eqb_spec name "") as [?|_]; [contradiction|].
    destruct (String.eqb_spec email "") as [?|_]; [contradiction|].
    destruct (String.eqb_spec password "") as [?|_]; [contradiction|].
    cbn [orb]. rewrite Hb. cbn [is_none fst snd]. now split.
Qed.

(** ** The "Adapt text" button *)

Lemma init_output_frame (w : World) :
  st_secrets (init_output w) = st_secrets w
  /\ os_environ (init_output w) = os_environ w
  /\ http (init_output w) = http w
  /\ sent (init_output w) = sent w.
Proof.
  unfold init_output. now destruct (negb (session_has w "output_text")).
Qed.

Lemma credential_init_output (w : World) :
  credential (init_output w) = credential w.
Proof.
  unfold credential. destruct (init_output_frame w) as (-> & -> & _).
  reflexivity.
Qed.

(** What a direct call can return. *)
Lemma direct_result_cases (token text : string) (config : pydict) (w : World)
  (key : pyval) :
  credential w = Some key ->
  hashable (dict_get_none config "aiModel") = true ->
  exists v,
    fst (adapt_text token text config w) = Return v
    /\ ((exists msg, v = error_dict (PStr msg) /\ truthy (PStr msg) = true)
        \/ (exists adapted meta,
              v = PDict [("adaptedText", PStr adapted);
                         ("metadata", PDict meta)])).
Proof.
  intros Hk Hh. destruct (credential_key _ _ Hk) as [Ht _].
  unfold adapt_text, requests_send. rewrite Ht, model_map_get_hashable, Hh.
  destruct (http w _) as [resp|exc]; cbn [fst].
  - destruct (negb (ok resp)); cbn [fst].
    + eexists. split; [reflexivity|]. left. eexists. split; reflexivity.
    + destruct (read_openai_response _ resp) as [v|exc] eqn:E; cbn [fst].
      * exists v. split; [reflexivity|].
        apply read_openai_response_shape in E
          as [->|(adapted & meta & -> & _)].
        -- left. eexists. split; reflexivity.
        -- right. now exists adapted, meta.
      * eexists. split; [reflexivity|]. left. eexists. split; reflexivity.
  - eexists. split; [reflexivity|]. left. eexists. split; reflexivity.
Qed.

Lemma adapt_text_session (token text : string) (config : pydict) (w : World) :
  session_state (snd (adapt_text token text config w)) = session_state w.
Proof.
  rewrite adapt_text_world.
  destruct (truthy (lookup_openai_key w)); [|reflexivity].
  now destruct (model_map_get _ _).
Qed.

(** X18. On the direct path, with an aiModel that can be hashed, pressing
    "Adapt text" never raises. Either the call failed: an error notice is
    shown and the output and metadata shown before stay as they were; or it
    succeeded: the adapted text and its metadata replace them. *)
Theorem adapt_pressed_on_direct_path
  (token text : string) (config : pydict) (w : World) (key : pyval) :
  credential w = Some key ->
  hashable (dict_get_none config "aiModel") = true ->
  let w0 := init_output w in
  let w' := snd (adapt_pressed token text config w) in
  (exists msg,
     fst (adapt_text token text config w0) = Return (error_dict (PStr msg))
     /\ fst (adapt_pressed token text config w)
        = Return (st_error ("Adaptation failed: " ++ msg))
     /\ session_get w' "output_text" = session_get w0 "output_text"
     /\ session_get w' "metadata" = session_get w0 "metadata")
  \/ (exists adapted meta,
        fst (adapt_text token text config w0)
        = Return (PDict [("adaptedText", PStr adapted);
                         ("metadata", PDict meta)])
        /\ fst (adapt_pressed token text config w)
           = Return (st_success "Text adapted successfully!")
        /\ session_get w' "output_text" = PStr adapted
        /\ session_get w' "metadata" = PDict meta).
Proof.
  intros Hk Hh. cbv zeta.
  rewrite <- credential_init_output in Hk.
  destruct (direct_result_cases token text config _ _ Hk Hh)
    as (v & Hv & Hcases).
  pose proof (adapt_text_session token text config (init_output w)) as Hs.
  unfold adapt_pressed.
  destruct (adapt_text token text config (init_output w)) as [r w1].
  cbn [fst snd] in *. subst r.
  destruct Hcases as [(msg & -> & Hmsg)|(adapted & meta & ->)].
  - left. exists msg. unfold is_error, error_dict.
    cbn [dict_get_none dict_get_default dict_get String.eqb Ascii.eqb Bool.eqb].
    rewrite Hmsg. cbn [py_getitem dict_get String.eqb Ascii.eqb Bool.eqb py_str
                       fst snd].
    unfold session_get. now rewrite Hs.
  - right. exists adapted, meta. split; [reflexivity|]. split; [reflexivity|].
    cbn [is_error dict_get_none dict_get_default dict_get String.eqb Ascii.eqb
         Bool.eqb truthy py_get fst snd]. split.
    + rewrite session_get_set_other by discriminate. apply session_get_set.
    + apply session_get_set.
Qed.

(** X19. On the proxy path an answer with a non-success status whose body is
    an object without a usable error (the empty object, or an "error" field
    that is empty, null or false) is not recognised as a failure: pressing
    "Adapt text" reports success and stores an empty output with empty
    metadata. *)
Theorem empty_error_reported_as_success
  (token text : string) (config : pydict) (w : World)
  (resp : Response) (d : pydict) :
  credential w = None ->
  http w (function_request "/adapt-text" token
            (Some (PDict [("text", PStr text); ("config", PDict config)])))
  = Return resp ->
  resp_json resp = Return (PDict d) ->
  ok resp = false ->
  truthy (dict_get_default d "error" (PDict d)) = false ->
  let w' := snd (adapt_pressed token text config w) in
  fst (adapt_text token text config (init_output w))
  = Return (error_dict (dict_get_default d "error" (PDict d)))
  /\ fst (adapt_pressed token text config w)
     = Return (st_success "Text adapted successfully!")
  /\ session_get w' "output_text" = PStr ""
  /\ session_get w' "metadata" = PDict [].
Proof.
  intros Hk Hr Hj Hok Herr. cbv zeta.
  rewrite <- credential_init_output in Hk.
  destruct (init_output_frame w) as (_ & _ & Hhttp & _).
  rewrite <- Hhttp in Hr. apply credential_none in Hk.
  assert (Ha : fst (adapt_text token text config (init_output w))
               = Return (error_dict (dict_get_default d "error" (PDict d)))).
  { unfold adapt_text. rewrite Hk.
    rewrite (call_function_answer _ _ _ _ _ Hr), Hj, Hok. reflexivity. }
  split; [exact Ha|]. unfold adapt_pressed.
  destruct (adapt_text token text config (init_output w)) as [r w1].
  cbn [fst] in Ha. subst r. unfold is_error, error_dict.
  cbn [dict_get_none dict_get_default dict_get String.eqb Ascii.eqb Bool.eqb]
    in *.
  fold (dict_get_default d "error" (PDict d)). rewrite Herr.
  cbn [py_get dict_get_default dict_get String.eqb Ascii.eqb Bool.eqb fst snd].
  split; [reflexivity|]. split.
  - rewrite session_get_set_other by discriminate. apply session_get_set.
  - apply session_get_set.
Qed.

(** ** Caches and fetching *)

Lemma refresh_history_cached (token : string) (w : World) :
  is_none (session_get w "history_cache") = false ->
  refresh_history false token w = (Return tt, w).
Proof. intros H. unfold refresh_history. now rewrite H. Qed.

(** X20. The caches decide when the network is used. With a cache in place
    and no click nothing is fetched and nothing changes. After a fetch of
    the history that returned an error the next view fetches again without
    a click; after one that returned a history it does not. *)
Theorem cache_decides_fetching (token : string) (w : World) :
  (is_none (session_get w "history_cache") = false ->
   refresh_history false token w = (Return tt, w))
  /\ (is_none (session_get w "analytics_cache") = false ->
      refresh_analytics false token w = (Return tt, w))
  /\ (forall clicked data,
        clicked || is_none (session_get w "history_cache") = true ->
        fst (fetch_history token w) = Return data ->
        let w1 := snd (refresh_history clicked token w) in
        let q := function_request "/history" token None in
        (ErrorResult data = true ->
         sent (snd (refresh_history false token w1)) = (sent w ++ [q; q])%list)
        /\ (forall d history,
              data = PDict d -> ErrorResult data = false ->
              dict_get_default d "history" (PList []) = PList history ->
              refresh_history false token w1 = (Return tt, w1)
              /\ sent w1 = (sent w ++ [q])%list)).
Proof.
  split; [apply refresh_history_cached|]. split.
  { intros H. unfold refresh_analytics. now rewrite H. }
  intros clicked data Ht Hf. cbv zeta.
  pose proof (refresh_history_sent clicked token w) as Hs1. rewrite Ht in Hs1.
  pose proof (refresh_history_fetched _ _ _ _ Ht Hf) as Hr.
  split.
  - intros He. rewrite He in Hr. rewrite refresh_history_sent, Hs1.
    rewrite Hr. cbn [snd]. rewrite session_get_set. cbn [is_none orb].
    now rewrite <- app_assoc.
  - intros d history -> He Hh. rewrite He, Hh in Hr.
    split; [|exact Hs1]. apply refresh_history_cached.
    rewrite Hr. cbn [snd]. now rewrite session_get_set.
Qed.

(** X21. A history or analytics fetch that fails with a non-success status
    and an object body without a usable error is not treated as a failure:
    the history cache becomes the empty list (and is not fetched again on
    the next view), the analytics cache becomes the error object itself. *)
Theorem empty_error_is_cached
  (clicked : bool) (token : string) (w : World) (resp : Response) (d : pydict) :
  (forall path, http w (function_request path token None) = Return resp) ->
  resp_json resp = Return (PDict d) ->
  ok resp = false ->
  truthy (dict_get_default d "error" (PDict d)) = false ->
  (clicked || is_none (session_get w "history_cache") = true ->
   let w' := snd (refresh_history clicked token w) in
   read_history w' = PList []
   /\ refresh_history false token w' = (Return tt, w'))
  /\ (clicked || is_none (session_get w "analytics_cache") = true ->
      read_analytics (snd (refresh_analytics clicked token w))
      = error_dict (dict_get_default d "error" (PDict d))).
Proof.
  intros Hr Hj Hok Herr.
  assert (Hf : forall path,
            fst (call_function path token None w)
            = Return (error_dict (dict_get_default d "error" (PDict d)))).
  { intros path. now rewrite (call_function_answer _ _ _ _ _ (Hr path)), Hj, Hok. }
  assert (He : ErrorResult (error_dict (dict_get_default d "error" (PDict d)))
               = false).
  { unfold ErrorResult, error_dict.
    cbn [dict_get_none dict_get_default dict_get String.eqb Ascii.eqb Bool.eqb].
    exact Herr. }
  split.
  - intros Ht. cbv zeta.
    rewrite (refresh_history_fetched _ _ _ _ Ht (Hf "/history")), He.
    cbn [error_dict snd dict_get_default dict_get String.eqb Ascii.eqb Bool.eqb].
    unfold read_history. rewrite session_get_default_set.
    split; [reflexivity|]. apply refresh_history_cached.
    now rewrite session_get_set.
  - intros Ht.
    rewrite (refresh_analytics_fetched _ _ _ _ Ht (Hf "/analytics")), He.
    cbn [snd]. unfold read_analytics. apply session_get_set.
Qed.

(** ** More on the history filters *)

Lemma comprehension_first_failure (cond : pyval -> result bool) (l : list pyval) :
  comprehension cond l
  = match first_failure cond l with
    | Some e => Raise e
    | None =>
        Return (List.filter (fun x => match cond x with
                                      | Return b => b
                                      | Raise _ => false
                                      end) l)
    end.
Proof.
  induction l as [|x l IH]; [reflexivity|].
  cbn [comprehension first_failure List.filter].
  destruct (cond x) as [b|e]; cbn [mbind result_bind]; [|reflexivity].
  rewrite IH. destruct (first_failure cond l); cbn [mbind result_bind];
    reflexivity.
Qed.

Lemma first_failure_in (cond : pyval -> result bool) (l : list pyval)
  (x : pyval) (e : pyexc) :
  In x l -> cond x = Raise e -> exists e', first_failure cond l = Some e'.
Proof.
  induction l as [|y l IH]; [intros []|].
  intros [->|Hin] Hx; cbn [first_failure].
  - rewrite Hx. now exists e.
  - destruct (cond y); [now apply IH|now eexists].
Qed.

Lemma comprehension_ext (c1 c2 : pyval -> result bool) (l : list pyval) :
  (forall x, c1 x = c2 x) -> comprehension c1 l = comprehension c2 l.
Proof.
  intros H. induction l as [|x l IH]; [reflexivity|].
  cbn [comprehension]. now rewrite H, IH.
Qed.

(** X22. The filters look at an entry only when they are active. With an
    empty search and both selections on "all" the cached list comes back
    unchanged, whatever it holds. With a search term, one entry whose
    originalText is present but is not a string (null, for one) makes the
    whole filtering raise; with a grade filter and no search term, one
    entry without a "config" does. *)
Theorem filters_check_entries_lazily
  (search grade_filter model_filter : string) (history_data : list pyval)
  (d : pydict) :
  filter_history "" "all" "all" history_data = Return history_data
  /\ (forall v,
        search <> "" -> In (PDict d) history_data ->
        dict_get d "originalText" = Some v -> (forall s, v <> PStr s) ->
        exists e,
          filter_history search grade_filter model_filter history_data = Raise e)
  /\ (grade_filter <> "all" -> In (PDict d) history_data ->
      dict_get d "config" = None ->
      exists e,
        filter_history "" grade_filter model_filter history_data = Raise e).
Proof.
  split; [reflexivity|]. split.
  - intros v Hs Hin Hd Hv. unfold filter_history. cbn [truthy].
    destruct (String.eqb_spec search "") as [?|_]; [contradiction|].
    cbn [negb].
    assert (Hc : search_cond search (PDict d) = Raise AttributeError).
    { unfold search_cond. cbn [py_get mbind result_bind].
      unfold dict_get_default. rewrite Hd.
      destruct v; try reflexivity. now destruct (Hv s). }
    destruct (first_failure_in _ _ _ _ Hin Hc) as [e He].
    rewrite comprehension_first_failure, He. now exists e.
  - intros Hg Hin Hd. unfold filter_history.
    cbn [truthy String.eqb negb mbind result_bind].
    destruct (String.eqb_spec grade_filter "all") as [?|_]; [contradiction|].
    cbn [negb].
    assert (Hc : config_cond "gradeLevel" grade_filter (PDict d)
                 = Raise KeyError).
    { unfold config_cond. cbn [py_getitem]. now rewrite Hd. }
    destruct (first_failure_in _ _ _ _ Hin Hc) as [e He].
    rewrite comprehension_first_failure, He. now exists e.
Qed.

Lemma lower_char_idem (c : ascii) : lower_char (lower_char c) = lower_char c.
Proof. destruct c as [[] [] [] [] [] [] [] []]; reflexivity. Qed.

Lemma lower_idem (s : string) : lower (lower s) = lower s.
Proof.
  induction s as [|c s IH]; [reflexivity|].
  cbn [lower]. now rewrite lower_char_idem, IH.
Qed.

Lemma lower_empty_iff (s : string) : lower s = "" <-> s = "".
Proof. destruct s; cbn [lower]; split; congruence. Qed.

(** X23. The search ignores the case of the term: searching for a term and
    searching for its lower-case form give the same outcome on every list,
    the same entries or the same exception. *)
Theorem search_term_case_ignored
  (search grade_filter model_filter : string) (history_data : list pyval) :
  filter_history (lower search) grade_filter model_filter history_data
  = filter_history search grade_filter model_filter history_data.
Proof.
  unfold filter_history. cbn [truthy].
  assert (He : String.eqb (lower search) "" = String.eqb search "").
  { destruct search; reflexivity. }
  rewrite He.
  rewrite (comprehension_ext (search_cond (lower search)) (search_cond search));
    [reflexivity|].
  intros x. unfold search_cond. now rewrite lower_idem.
Qed.
End App.

(** ** The properties at concrete inputs *)

Abbreviation adapt := (adapt_text sample_exc_str sample_repr sample_settings).
Abbreviation invoke := (call_function sample_exc_str sample_settings).

(** A credential present for the first call and gone for the second: the
    first request goes to the direct backend, the second to the proxy. *)
Example credential_toggle :
  let w0 := sample_world SecretsNotDict key_env ∅ (Return completion) in
  let w1 := snd (adapt "tok" "Cats are mammals." premium_config w0) in
  let w2 := snd (adapt "tok" "Cats are mammals." premium_config
                   (set_credentials SecretsNotDict ∅ w1)) in
  map (handler sample_settings) (sent w2) = [Some Direct; Some Proxy].
Proof. vm_compute. reflexivity. Qed.

(** C2, as stated, fails on the proxy path: the parsed body of a successful
    response is returned as it is. An empty object comes back as a value
    that is neither an ErrorResult nor an AdaptationResult; an object with
    both an error and an adaptedText comes back as a value that is both. *)
Lemma passthrough_breaks_result_shape :
  let neither := fst (adapt "tok" "Cats are mammals." premium_config
                        (sample_world SecretsAbsent ∅ ∅ (Return empty_object))) in
  let both := fst (adapt "tok" "Cats are mammals." premium_config
                     (sample_world SecretsAbsent ∅ ∅ (Return error_and_text))) in
  (neither = Return (PDict [])
   /\ ErrorResult (PDict []) = false
   /\ AdaptationResult (PDict []) = false
   /\ ~ one_result_shape neither)
  /\ (exists v, both = Return v
                /\ ErrorResult v = true /\ AdaptationResult v = true)
  /\ ~ one_result_shape both.
Proof.
  cbv zeta.
  assert (H : fst (adapt "tok" "Cats are mammals." premium_config
                     (sample_world SecretsAbsent ∅ ∅ (Return empty_object)))
              = Return (PDict [])) by (vm_compute; reflexivity).
  assert (G : fst (adapt "tok" "Cats are mammals." premium_config
                     (sample_world SecretsAbsent ∅ ∅ (Return error_and_text)))
              = Return (PDict [("error", PStr "quota exceeded");
                               ("adaptedText", PStr "The cat sat.")]))
    by (vm_compute; reflexivity).
  split; [|split].
  - repeat split; try exact H; try reflexivity.
    rewrite H. intros (v & [= <-] & Hx). discriminate Hx.
  - eexists. split; [exact G|]. split; reflexivity.
  - rewrite G. intros (v & [= <-] & Hx). discriminate Hx.
Qed.

Lemma resolved_model_recorded_witness :
  let w := sample_world (SecretsDict [("OPENAI_API_KEY", PStr "sk-test")]) ∅ ∅
             (Return completion) in
  In "premium" ["basic"; "advanced"; "premium"]
  /\ dict_get premium_config "aiModel" = Some (PStr "premium")
  /\ fst (adapt "tok" "Cats are mammals." premium_config w) = Return completion_result
  /\ metadata_model completion_result = Some (PStr "gpt-4").
Proof.
  cbv zeta.
  assert (H1 : In "premium" ["basic"; "advanced"; "premium"])
    by (right; right; left; reflexivity).
  assert (H2 : dict_get premium_config "aiModel" = Some (PStr "premium"))
    by reflexivity.
  split; [exact H1|]. split; [exact H2|]. split; [vm_compute; reflexivity|].
  apply (proj2 (proj2 (proj2
           (resolved_model_recorded sample_exc_str sample_repr sample_settings
              "premium" "tok" "Cats are mammals." premium_config
              (sample_world (SecretsDict [("OPENAI_API_KEY", PStr "sk-test")])
                 ∅ ∅ (Return completion)) H1 H2)))).
  - vm_compute. discriminate.
  - vm_compute. reflexivity.
  - reflexivity.
Defined.

(** C10, as stated, fails for a value that cannot be hashed: a list-valued
    aiModel makes the lookup raise TypeError before any request is sent. *)
Lemma list_model_raises :
  let w := sample_world SecretsAbsent key_env ∅ (Return completion) in
  enumerated_model (dict_get_none list_model_config "aiModel") = false
  /\ model_map_get (dict_get_none list_model_config "aiModel") "gpt-3.5-turbo"
     = Raise TypeError
  /\ fst (adapt "tok" "Cats are mammals." list_model_config w) = Raise TypeError
  /\ issued sample_exc_str sample_repr sample_settings
       "tok" "Cats are mammals." list_model_config w = [].
Proof. cbv zeta. repeat split; vm_compute; reflexivity. Qed.

Lemma unknown_model_defaults_witness :
  hashable (PStr "ultra") = true
  /\ enumerated_model (PStr "ultra") = false
  /\ dict_get [("gradeLevel", PStr "2")] "aiModel" = None
  /\ model_map_get (PStr "ultra") "gpt-3.5-turbo" = Return "gpt-3.5-turbo"
  /\ model_map_get (dict_get_none [("gradeLevel", PStr "2")] "aiModel")
       "gpt-3.5-turbo" = Return "gpt-3.5-turbo".
Proof.
  assert (H1 : hashable (PStr "ultra") = true) by reflexivity.
  assert (H2 : enumerated_model (PStr "ultra") = false) by reflexivity.
  assert (H3 : dict_get [("gradeLevel", PStr "2")] "aiModel" = None)
    by reflexivity.
  split; [exact H1|]. split; [exact H2|]. split; [exact H3|]. split.
  - exact (proj1 (unknown_model_defaults sample_exc_str sample_repr
                    sample_settings) (PStr "ultra") H1 H2).
  - exact (proj1 (proj2 (unknown_model_defaults sample_exc_str sample_repr
                           sample_settings)) [("gradeLevel", PStr "2")] H3).
Defined.


Lemma proxy_invalid_json_witness :
  let w := sample_world SecretsAbsent ∅ ∅ (Return bad_gateway_page) in
  let msg := "Invalid JSON response (status 502). Response body: <html>Bad Gateway</html>" in
  http w (function_request sample_settings "/history" "tok" None)
  = Return bad_gateway_page
  /\ resp_json bad_gateway_page = Raise not_json
  /\ fst (invoke "/history" "tok" None w) = Return (error_dict (PStr msg))
  /\ occurs_in "502" msg
  /\ occurs_in "<html>Bad Gateway</html>" msg.
Proof.
  cbv zeta.
  set (w := sample_world SecretsAbsent ∅ ∅ (Return bad_gateway_page)).
  assert (H1 : http w (function_request sample_settings "/history" "tok" None)
               = Return bad_gateway_page) by reflexivity.
  assert (H2 : resp_json bad_gateway_page = Raise not_json) by reflexivity.
  destruct (proxy_invalid_json sample_exc_str sample_settings
              "/history" "tok" None w bad_gateway_page not_json H1 H2)
    as (R & _ & C & B & _).
  split; [exact H1|]. split; [exact H2|]. split; [exact R|].
  split; [exact C|exact B].
Defined.

(** The input on which C7 fails: status 500 with the JSON body [[]]. *)
Lemma proxy_error_status_witness :
  let w := sample_world SecretsAbsent ∅ ∅ (Return server_error_list) in
  http w (function_request sample_settings "/history" "tok" None)
  = Return server_error_list
  /\ resp_json server_error_list = Return (PList [])
  /\ ok server_error_list = false
  /\ fst (invoke "/history" "tok" None w) = Raise AttributeError.
Proof.
  cbv zeta.
  set (w := sample_world SecretsAbsent ∅ ∅ (Return server_error_list)).
  assert (H1 : http w (function_request sample_settings "/history" "tok" None)
               = Return server_error_list) by reflexivity.
  assert (H2 : resp_json server_error_list = Return (PList [])) by reflexivity.
  assert (H3 : ok server_error_list = false) by reflexivity.
  split; [exact H1|]. split; [exact H2|]. split; [exact H3|].
  exact (proxy_error_status sample_exc_str sample_settings
           "/history" "tok" None w server_error_list (PList []) H1 H2 H3).
Defined.

Lemma failed_fetch_clears_cache_witness :
  let w := sample_world SecretsAbsent ∅ stale_session (Raise connection_refused) in
  let failure := error_dict (PStr "Failed to call function: connection refused") in
  read_analytics w <> PNone
  /\ read_history w = PList sample_history
  /\ fst (fetch_analytics sample_exc_str sample_settings "tok" w) = Return failure
  /\ fst (fetch_history sample_exc_str sample_settings "tok" w) = Return failure
  /\ ErrorResult failure = true
  /\ read_analytics
       (snd (refresh_analytics sample_exc_str sample_settings true "tok" w))
     = PNone
  /\ read_history
       (snd (refresh_history sample_exc_str sample_settings true "tok" w))
     = PNone.
Proof.
  cbv zeta.
  set (w := sample_world SecretsAbsent ∅ stale_session (Raise connection_refused)).
  set (failure := error_dict (PStr "Failed to call function: connection refused")).
  assert (Ha : fst (fetch_analytics sample_exc_str sample_settings "tok" w)
               = Return failure) by reflexivity.
  assert (Hh : fst (fetch_history sample_exc_str sample_settings "tok" w)
               = Return failure) by reflexivity.
  assert (He : ErrorResult failure = true) by reflexivity.
  destruct (failed_fetch_clears_cache sample_exc_str sample_settings true "tok" w)
    as [A H].
  destruct (A failure eq_refl Ha) as (_ & A1 & _).
  destruct (H failure eq_refl Hh) as (H1 & _).
  split; [vm_compute; discriminate|]. split; [vm_compute; reflexivity|].
  split; [exact Ha|]. split; [exact Hh|]. split; [exact He|]. split.
  - exact (proj2 (A1 He)).
  - exact (proj2 (proj2 (H1 He))).
Defined.

(** The scenario of §8: grades "2" and "5", a grade filter of "2" and a
    search term that matches the adaptedText of one "2"-graded entry. *)
Lemma history_filters_conjunction_witness :
  Forall (fun e => history_entry e = true) sample_history
  /\ filter_history "CAT" "2" "all" sample_history
     = Return [sample_entry "a" "2" "basic" "The feline reposed." "The cat sat."].
Proof.
  assert (H : Forall (fun e => history_entry e = true) sample_history)
    by (repeat constructor).
  split; [exact H|].
  exact (proj1 (history_filters_conjunction "CAT" "2" "all" sample_history H)).
Defined.

(** ** The further properties at concrete inputs *)

Abbreviation direct_world answer :=
  (sample_world SecretsAbsent key_env ∅ answer).
Abbreviation proxy_world session answer :=
  (sample_world SecretsAbsent ∅ session answer).
Abbreviation direct_request :=
  (openai_request sample_repr (PStr "sk-test")
     (openai_payload "gpt-4"
        (build_user_prompt sample_repr premium_config "Cats are mammals."))).

Lemma call_function_raises_iff_witness :
  let w := proxy_world ∅ (Raise connection_refused) in
  http w (function_request sample_settings "/history" "tok" None)
  = Raise connection_refused
  /\ exists v, fst (invoke "/history" "tok" None w) = Return v
               /\ ErrorResult v = true.
Proof.
  cbv zeta. split; [reflexivity|].
  exact (proj1 (proj2 (call_function_raises_iff sample_exc_str sample_settings
                         "/history" "tok" None
                         (proxy_world ∅ (Raise connection_refused))))
           connection_refused eq_refl).
Defined.

Lemma direct_failure_no_fallback_witness :
  let w := direct_world (Raise connection_refused) in
  credential w = Some (PStr "sk-test")
  /\ model_map_get (dict_get_none premium_config "aiModel") "gpt-3.5-turbo"
     = Return "gpt-4"
  /\ http w direct_request = Raise connection_refused
  /\ fst (adapt "tok" "Cats are mammals." premium_config w)
     = Return (error_dict (PStr "Failed to call OpenAI API: connection refused"))
  /\ map (handler sample_settings)
       (issued sample_exc_str sample_repr sample_settings
          "tok" "Cats are mammals." premium_config w)
     = [Some Direct].
Proof.
  cbv zeta. set (w := direct_world (Raise connection_refused)).
  assert (H1 : credential w = Some (PStr "sk-test")) by (vm_compute; reflexivity).
  assert (H2 : model_map_get (dict_get_none premium_config "aiModel")
                 "gpt-3.5-turbo" = Return "gpt-4") by reflexivity.
  assert (H3 : http w direct_request = Raise connection_refused) by reflexivity.
  destruct (direct_failure_no_fallback sample_exc_str sample_repr sample_settings
              "tok" "Cats are mammals." premium_config w (PStr "sk-test")
              "gpt-4" connection_refused H1 H2 H3) as [R I].
  split; [exact H1|]. split; [exact H2|]. split; [exact H3|].
  split; [exact R|exact I].
Defined.

Lemma no_choices_error_witness :
  let w := direct_world (Return no_choices) in
  credential w = Some (PStr "sk-test")
  /\ model_map_get (dict_get_none premium_config "aiModel") "gpt-3.5-turbo"
     = Return "gpt-4"
  /\ http w direct_request = Return no_choices
  /\ ok no_choices = true
  /\ resp_json no_choices
     = Return (PDict [("id", PStr "cmpl-1"); ("choices", PList [])])
  /\ truthy (dict_get_default [("id", PStr "cmpl-1"); ("choices", PList [])]
               "choices" (PList [])) = false
  /\ fst (adapt "tok" "Cats are mammals." premium_config w)
     = Return (error_dict (PStr "OpenAI API returned no choices.")).
Proof.
  cbv zeta. set (w := direct_world (Return no_choices)).
  assert (H1 : credential w = Some (PStr "sk-test")) by (vm_compute; reflexivity).
  assert (H2 : model_map_get (dict_get_none premium_config "aiModel")
                 "gpt-3.5-turbo" = Return "gpt-4") by reflexivity.
  assert (H3 : http w direct_request = Return no_choices) by reflexivity.
  assert (H4 : ok no_choices = true) by reflexivity.
  assert (H5 : resp_json no_choices
               = Return (PDict [("id", PStr "cmpl-1"); ("choices", PList [])]))
    by reflexivity.
  assert (H6 : truthy (dict_get_default
                         [("id", PStr "cmpl-1"); ("choices", PList [])]
                         "choices" (PList [])) = false) by reflexivity.
  split; [exact H1|]. split; [exact H2|]. split; [exact H3|]. split; [exact H4|].
  split; [exact H5|]. split; [exact H6|].
  exact (no_choices_error sample_exc_str sample_repr sample_settings
           "tok" "Cats are mammals." premium_config w (PStr "sk-test") "gpt-4"
           no_choices _ H1 H2 H3 H4 H5 H6).
Defined.

Lemma first_choice_adapted_witness :
  let w := direct_world (Return completion) in
  credential w = Some (PStr "sk-test")
  /\ http w direct_request = Return completion
  /\ ok completion = true
  /\ resp_json completion = Return (PDict completion_body)
  /\ (exists u, dict_get completion_body "usage" = Some (PDict u))
  /\ fst (adapt "tok" "Cats are mammals." premium_config w)
     = Return completion_result.
Proof.
  cbv zeta. set (w := direct_world (Return completion)).
  assert (H1 : credential w = Some (PStr "sk-test")) by (vm_compute; reflexivity).
  assert (H2 : model_map_get (dict_get_none premium_config "aiModel")
                 "gpt-3.5-turbo" = Return "gpt-4") by reflexivity.
  assert (H3 : http w direct_request = Return completion) by reflexivity.
  assert (H4 : ok completion = true) by reflexivity.
  assert (H5 : resp_json completion = Return (PDict completion_body))
    by reflexivity.
  assert (H6 : exists u, dict_get completion_body "usage" = Some (PDict u))
    by (eexists; reflexivity).
  split; [exact H1|]. split; [exact H3|]. split; [exact H4|]. split; [exact H5|].
  split; [exact H6|].
  exact (first_choice_adapted sample_exc_str sample_repr sample_settings
           "tok" "Cats are mammals." premium_config w (PStr "sk-test") "gpt-4"
           completion completion_body
           [("message", PDict [("role", PStr "assistant");
                               ("content", PStr " The cat sat. ")])]
           [("role", PStr "assistant"); ("content", PStr " The cat sat. ")]
           [] " The cat sat. "
           H1 H2 H3 H4 H5 eq_refl eq_refl eq_refl (or_intror H6)).
Defined.

Lemma usage_not_object_is_error_witness :
  let w := direct_world (Return completion_null_usage) in
  credential w = Some (PStr "sk-test")
  /\ http w direct_request = Return completion_null_usage
  /\ ok completion_null_usage = true
  /\ (forall u, PNone <> PDict u)
  /\ fst (adapt "tok" "Cats are mammals." premium_config w)
     = Return (error_dict (PStr
         "Failed to parse OpenAI response: object has no attribute")).
Proof.
  cbv zeta. set (w := direct_world (Return completion_null_usage)).
  assert (H1 : credential w = Some (PStr "sk-test")) by (vm_compute; reflexivity).
  assert (H2 : model_map_get (dict_get_none premium_config "aiModel")
                 "gpt-3.5-turbo" = Return "gpt-4") by reflexivity.
  assert (H3 : http w direct_request = Return completion_null_usage)
    by reflexivity.
  assert (H4 : ok completion_null_usage = true) by reflexivity.
  assert (H5 : forall u, PNone <> PDict u) by (intros u; discriminate).
  split; [exact H1|]. split; [exact H3|]. split; [exact H4|]. split; [exact H5|].
  exact (usage_not_object_is_error sample_exc_str sample_repr sample_settings
           "tok" "Cats are mammals." premium_config w (PStr "sk-test") "gpt-4"
           completion_null_usage _
           [("message", PDict [("role", PStr "assistant");
                               ("content", PStr " The cat sat. ")])]
           [("role", PStr "assistant"); ("content", PStr " The cat sat. ")]
           [] " The cat sat. " PNone
           H1 H2 H3 H4 eq_refl eq_refl eq_refl eq_refl eq_refl H5).
Defined.

Lemma direct_path_ignores_token_witness :
  let w := direct_world (Return completion) in
  credential w <> None
  /\ adapt "token-of-ann" "Cats are mammals." premium_config w
     = adapt "token-of-bob" "Cats are mammals." premium_config w.
Proof.
  cbv zeta.
  assert (H : credential (direct_world (Return completion)) <> None)
    by (vm_compute; discriminate).
  split; [exact H|].
  exact (direct_path_ignores_token sample_exc_str sample_repr sample_settings
           "token-of-ann" "token-of-bob" "Cats are mammals." premium_config
           (direct_world (Return completion)) H).
Defined.

Lemma grade_default_and_passthrough_witness :
  dict_get [("aiModel", PStr "basic")] "gradeLevel" = None
  /\ exists rest,
       build_user_prompt sample_repr [("aiModel", PStr "basic")] "Cats."
       = "Rewrite the following text for grade 3 reading level." ++ rest.
Proof.
  split; [reflexivity|].
  exact (proj1 (proj2 (grade_default_and_passthrough sample_repr
                         [("aiModel", PStr "basic")] "Cats.")) eq_refl).
Defined.

Lemma init_supabase_caches_client_witness :
  let w := proxy_world ∅ (Raise connection_refused) in
  let w1 := snd (init_supabase sample_supabase w) in
  fst (init_supabase sample_supabase w) = Return (PStr "client")
  /\ init_supabase broken_supabase w1 = (Return (PStr "client"), w1).
Proof.
  cbv zeta.
  assert (H : fst (init_supabase sample_supabase
                     (proxy_world ∅ (Raise connection_refused)))
              = Return (PStr "client")) by (vm_compute; reflexivity).
  split; [exact H|].
  exact (proj1 (init_supabase_caches_client sample_supabase
                  (proxy_world ∅ (Raise connection_refused)) (PStr "client") H)
           broken_supabase).
Defined.

Lemma sign_out_clears_session_witness :
  let w := proxy_world signed_in_session (Return history_payload) in
  let w' := snd (sign_out sample_supabase w) in
  session_has w "supabase_client" = true
  /\ signed_in w = true
  /\ read_history w = PList sample_history
  /\ signed_in w' = false
  /\ read_history w' = PList []
  /\ session_state w' !! "grade_level" = Some (PStr "5").
Proof.
  cbv zeta. set (w := proxy_world signed_in_session (Return history_payload)).
  assert (H : session_has w "supabase_client" = true) by (vm_compute; reflexivity).
  destruct (sign_out_clears_session sample_exc_str sample_settings sample_supabase w H)
    as (_ & _ & Hkeep & Hgate & Hhist & _).
  split; [exact H|]. split; [vm_compute; reflexivity|].
  split; [vm_compute; reflexivity|]. split; [exact Hgate|].
  split; [exact Hhist|].
  rewrite (Hkeep "grade_level").
  - vm_compute. reflexivity.
  - cbn [In]. intros [E|[E|[E|[E|[]]]]]; discriminate E.
Defined.

Lemma blank_fields_only_warn_witness :
  let w := proxy_world client_only_session (Raise connection_refused) in
  ("ann@example.org" = "" \/ "" = "")
  /\ sign_in_pressed sample_exc_str sample_supabase "ann@example.org" "" w
     = (st_warning "Please provide email and password", w).
Proof.
  cbv zeta.
  assert (H : "ann@example.org" = "" \/ "" = "") by (right; reflexivity).
  split; [exact H|].
  exact (proj1 (blank_fields_only_warn sample_exc_str sample_supabase
                  "Ann" "ann@example.org" ""
                  (proxy_world client_only_session (Raise connection_refused)))
           H).
Defined.

Lemma sign_in_needs_backend_session_witness :
  let w := proxy_world client_only_session (Raise connection_refused) in
  let w' := snd (sign_in_pressed sample_exc_str sample_supabase
                   "ann@example.org" "secret" w) in
  signed_in w = false
  /\ signed_in w' = true
  /\ session_get w' "session" = PStr "session-1"
  /\ session_get w' "user" = PStr "ann".
Proof.
  cbv zeta.
  set (w := proxy_world client_only_session (Raise connection_refused)).
  assert (H1 : signed_in w = false) by (vm_compute; reflexivity).
  assert (H2 : signed_in (snd (sign_in_pressed sample_exc_str sample_supabase
                                 "ann@example.org" "secret" w)) = true)
    by (vm_compute; reflexivity).
  destruct (sign_in_needs_backend_session sample_exc_str sample_supabase
              "ann@example.org" "secret" w H1 H2)
    as (_ & _ & session & user & Hb & _ & Hs & Hu & _).
  injection Hb as <- <-.
  split; [exact H1|]. split; [exact H2|]. split; [exact Hs|exact Hu].
Defined.

Lemma sign_up_needs_backend_session_witness :
  let w := proxy_world client_only_session (Raise connection_refused) in
  let w' := snd (sign_up_pressed sample_exc_str sample_supabase
                   "Ann" "ann@example.org" "secret" w) in
  signed_in w = false
  /\ auth_sign_up sample_supabase "Ann" "ann@example.org" "secret"
     = Return (PNone, PStr "ann@example.org")
  /\ signed_in w' = false
  /\ fst (sign_up_pressed sample_exc_str sample_supabase
            "Ann" "ann@example.org" "secret" w)
     = st_info "Sign up successful. Please check your email to confirm your account.".
Proof.
  cbv zeta.
  set (w := proxy_world client_only_session (Raise connection_refused)).
  assert (H1 : signed_in w = false) by (vm_compute; reflexivity).
  assert (H2 : auth_sign_up sample_supabase "Ann" "ann@example.org" "secret"
               = Return (PNone, PStr "ann@example.org")) by reflexivity.
  assert (Hn : "Ann" <> "") by discriminate.
  assert (He : "ann@example.org" <> "") by discriminate.
  assert (Hp : "secret" <> "") by discriminate.
  assert (Hc : exists client, fst (init_supabase sample_supabase w) = Return client)
    by (eexists; vm_compute; reflexivity).
  destruct (proj2 (sign_up_needs_backend_session sample_exc_str sample_supabase
                     "Ann" "ann@example.org" "secret" w H1)
              (PStr "ann@example.org") Hn He Hp H2 Hc) as [G N].
  split; [exact H1|]. split; [exact H2|]. split; [exact G|exact N].
Defined.

Lemma adapt_pressed_on_direct_path_witness :
  let w := sample_world SecretsAbsent key_env shown_output_session
             (Return server_error_empty) in
  let w' := snd (adapt_pressed sample_exc_str sample_repr sample_settings
                   "tok" "Cats are mammals." premium_config w) in
  credential w = Some (PStr "sk-test")
  /\ hashable (dict_get_none premium_config "aiModel") = true
  /\ fst (adapt_pressed sample_exc_str sample_repr sample_settings
            "tok" "Cats are mammals." premium_config w)
     = Return (st_error
         "Adaptation failed: OpenAI API error (status 500): <empty response>")
  /\ session_get w' "output_text" = PStr "An earlier result.".
Proof.
  cbv zeta.
  set (w := sample_world SecretsAbsent key_env shown_output_session
              (Return server_error_empty)).
  assert (H1 : credential w = Some (PStr "sk-test")) by (vm_compute; reflexivity).
  assert (H2 : hashable (dict_get_none premium_config "aiModel") = true)
    by reflexivity.
  split; [exact H1|]. split; [exact H2|].
  destruct (adapt_pressed_on_direct_path sample_exc_str sample_repr
              sample_settings "tok" "Cats are mammals." premium_config w
              (PStr "sk-test") H1 H2)
    as [(msg & Ha & Hn & Ho & _)|(adapted & meta & Ha & _)].
  - assert (Hm : msg = "OpenAI API error (status 500): <empty response>").
    { vm_compute in Ha. now injection Ha as <-. }
    subst msg. split; [exact Hn|]. rewrite Ho. vm_compute. reflexivity.
  - vm_compute in Ha. discriminate Ha.
Defined.

Lemma empty_error_reported_as_success_witness :
  let w := proxy_world shown_output_session (Return server_error_object) in
  let w' := snd (adapt_pressed sample_exc_str sample_repr sample_settings
                   "tok" "Cats are mammals." premium_config w) in
  credential w = None
  /\ ok server_error_object = false
  /\ truthy (dict_get_default [] "error" (PDict [])) = false
  /\ fst (adapt_pressed sample_exc_str sample_repr sample_settings
            "tok" "Cats are mammals." premium_config w)
     = Return (st_success "Text adapted successfully!")
  /\ session_get w' "output_text" = PStr "".
Proof.
  cbv zeta.
  set (w := proxy_world shown_output_session (Return server_error_object)).
  assert (H1 : credential w = None) by (vm_compute; reflexivity).
  assert (H2 : ok server_error_object = false) by reflexivity.
  assert (H3 : truthy (dict_get_default [] "error" (PDict [])) = false)
    by reflexivity.
  destruct (empty_error_reported_as_success sample_exc_str sample_repr
              sample_settings "tok" "Cats are mammals." premium_config w
              server_error_object [] H1 eq_refl eq_refl H2 H3)
    as (_ & Hn & Ho & _).
  split; [exact H1|]. split; [exact H2|]. split; [exact H3|].
  split; [exact Hn|exact Ho].
Defined.

Lemma cache_decides_fetching_witness :
  let w := proxy_world signed_in_session (Raise connection_refused) in
  let q := function_request sample_settings "/history" "tok" None in
  is_none (session_get w "history_cache") = false
  /\ refresh_history sample_exc_str sample_settings false "tok" w = (Return tt, w)
  /\ sent (snd (refresh_history sample_exc_str sample_settings false "tok"
                  (snd (refresh_history sample_exc_str sample_settings
                          true "tok" w))))
     = [q; q].
Proof.
  cbv zeta.
  set (w := proxy_world signed_in_session (Raise connection_refused)).
  assert (H : is_none (session_get w "history_cache") = false)
    by (vm_compute; reflexivity).
  destruct (cache_decides_fetching sample_exc_str sample_settings "tok" w)
    as (Hcached & _ & Hnext).
  split; [exact H|]. split; [exact (Hcached H)|].
  exact (proj1 (Hnext true
                  (error_dict (PStr "Failed to call function: connection refused"))
                  eq_refl eq_refl) eq_refl).
Defined.

Lemma empty_error_is_cached_witness :
  let w := proxy_world signed_in_session (Return server_error_object) in
  (forall path,
     http w (function_request sample_settings path "tok" None)
     = Return server_error_object)
  /\ ok server_error_object = false
  /\ read_history
       (snd (refresh_history sample_exc_str sample_settings true "tok" w))
     = PList [].
Proof.
  cbv zeta.
  set (w := proxy_world signed_in_session (Return server_error_object)).
  assert (H1 : forall path,
            http w (function_request sample_settings path "tok" None)
            = Return server_error_object) by (intros path; reflexivity).
  assert (H2 : ok server_error_object = false) by reflexivity.
  split; [exact H1|]. split; [exact H2|].
  exact (proj1 (proj1 (empty_error_is_cached sample_exc_str sample_settings
                         true "tok" w server_error_object []
                         H1 eq_refl H2 eq_refl) eq_refl)).
Defined.

Lemma filters_check_entries_lazily_witness :
  let l := (sample_history ++ [PDict null_text_entry; PDict no_config_entry])%list in
  "cat" <> ""
  /\ In (PDict null_text_entry) l
  /\ dict_get null_text_entry "originalText" = Some PNone
  /\ filter_history "" "all" "all" l = Return l
  /\ (exists e, filter_history "cat" "all" "all" l = Raise e).
Proof.
  cbv zeta.
  set (l := (sample_history
             ++ [PDict null_text_entry; PDict no_config_entry])%list).
  assert (H1 : "cat" <> "") by discriminate.
  assert (H2 : In (PDict null_text_entry) l)
    by (right; right; right; left; reflexivity).
  assert (H3 : dict_get null_text_entry "originalText" = Some PNone)
    by reflexivity.
  destruct (filters_check_entries_lazily "cat" "all" "all" l null_text_entry)
    as (Hid & Hraise & _).
  split; [exact H1|]. split; [exact H2|]. split; [exact H3|].
  split; [exact Hid|].
  apply (Hraise PNone H1 H2 H3). intros s. discriminate.
Defined.

(** The input on which C8 fails: a refresh answered with status 500 and the
    JSON body [[]], while history and analytics are cached. *)
Lemma raising_fetch_keeps_stale_cache_witness :
  let w := sample_world SecretsAbsent ∅ stale_session (Return server_error_list) in
  (forall path,
     http w (function_request sample_settings path "tok" None)
     = Return server_error_list)
  /\ resp_json server_error_list = Return (PList [])
  /\ ok server_error_list = false
  /\ (forall d, PList [] <> PDict d)
  /\ fst (refresh_history sample_exc_str sample_settings true "tok" w)
     = Raise AttributeError
  /\ read_history
       (snd (refresh_history sample_exc_str sample_settings true "tok" w))
     = PList sample_history
  /\ read_analytics
       (snd (refresh_analytics sample_exc_str sample_settings true "tok" w))
     <> PNone.
Proof.
  cbv zeta.
  set (w := sample_world SecretsAbsent ∅ stale_session (Return server_error_list)).
  assert (H1 : forall path,
            http w (function_request sample_settings path "tok" None)
            = Return server_error_list) by (intros path; reflexivity).
  assert (H2 : resp_json server_error_list = Return (PList [])) by reflexivity.
  assert (H3 : ok server_error_list = false) by reflexivity.
  assert (H4 : forall d, PList [] <> PDict d) by (intros d; discriminate).
  destruct (raising_fetch_keeps_stale_cache sample_exc_str sample_settings
              true "tok" w server_error_list (PList []) H1 H2 H3 H4)
    as [Hh Ha].
  destruct (Hh eq_refl) as (Hraise & _ & Hread & _).
  destruct (Ha eq_refl) as (_ & _ & Hana & _).
  split; [exact H1|]. split; [exact H2|]. split; [exact H3|].
  split; [exact H4|]. split; [exact Hraise|]. split.
  - rewrite Hread. vm_compute. reflexivity.
  - rewrite Hana. vm_compute. discriminate.
Defined.
